(** * Service quote tool: database loading, search and pricing

    A shallow embedding of [load_srt_database.py] and of the two variants of
    the quote tool script, [streamlit_quote_tool_pro.py] and
    [streamlit_quote_tool_pro_FIXED.py].

    - Python [float] is IEEE 754 binary64: it is Rocq's primitive [float],
      whose operations are the same binary64 operations.
    - Python [str] is modelled by [string] (8-bit characters); [lower] and
      [title] act on the ASCII letters and leave every other character alone.
    - A [dict] is an association list in insertion order.
    - A raised exception is the [Raise] case of [result].
    - The session state is a record passed explicitly; the reactive rerun of
      the script is a function of the session state and the widget inputs. *)

From Stdlib Require Import List String Ascii Bool Arith ZArith NArith Lia.
From Stdlib Require Import Floats.
Import ListNotations.

Set Implicit Arguments.

(* A decimal literal denotes the nearest binary64 value, in Python as here. *)
Set Warnings "-inexact-float".

Local Open Scope string_scope.
Local Open Scope list_scope.

(* ================================================================== *)
(** * Python builtins used by the scripts *)
(* ================================================================== *)

Module Py.

(** Exceptions the modelled code can raise. *)
Inductive exn : Type :=
| IndexError
| KeyError (key : string)
| ValueError
| TypeError
| FileNotFoundError (msg : string).

Inductive result (A : Type) : Type :=
| Ok (a : A)
| Raise (e : exn).

Arguments Ok {A} a.
Arguments Raise {A} e.

Definition bind {A B : Type} (r : result A) (k : A -> result B) : result B :=
  match r with
  | Ok a => k a
  | Raise e => Raise e
  end.

Notation "x <- r ;; k" := (bind r (fun x => k))
  (at level 61, r at next level, right associativity).

(** ** Strings *)

Definition is_upper (c : ascii) : bool :=
  let n := N_of_ascii c in ((65 <=? n) && (n <=? 90))%N.

Definition is_lower (c : ascii) : bool :=
  let n := N_of_ascii c in ((97 <=? n) && (n <=? 122))%N.

Definition is_cased (c : ascii) : bool := is_upper c || is_lower c.

Definition lower_char (c : ascii) : ascii :=
  if is_upper c then ascii_of_N (N_of_ascii c + 32) else c.

Definition upper_char (c : ascii) : ascii :=
  if is_lower c then ascii_of_N (N_of_ascii c - 32) else c.

(** [s.lower()] *)
Fixpoint lower (s : string) : string :=
  match s with
  | EmptyString => EmptyString
  | String c t => String (lower_char c) (lower t)
  end.

(** [s.title()]: a cased character is upper-cased when the character before
    it is not cased, and lower-cased otherwise. *)
Fixpoint title_from (prev_cased : bool) (s : string) : string :=
  match s with
  | EmptyString => EmptyString
  | String c t =>
      String (if prev_cased then lower_char c else upper_char c)
             (title_from (is_cased c) t)
  end.

Definition title (s : string) : string := title_from false s.

(** [s.replace(a, b)] for one-character [a] and [b]. *)
Fixpoint replace_char (a b : ascii) (s : string) : string :=
  match s with
  | EmptyString => EmptyString
  | String c t => String (if Ascii.eqb c a then b else c) (replace_char a b t)
  end.

(** [s.split(sep)] for a one-character separator: never empty, and empty
    tokens are kept. *)
Fixpoint split (sep : ascii) (s : string) : list string :=
  match s with
  | EmptyString => [EmptyString]
  | String c t =>
      if Ascii.eqb c sep then EmptyString :: split sep t
      else match split sep t with
           | tok :: rest => String c tok :: rest
           | [] => [String c EmptyString]
           end
  end.

(** [sep.join(parts)] *)
Fixpoint join (sep : string) (parts : list string) : string :=
  match parts with
  | [] => EmptyString
  | [p] => p
  | p :: rest => (p ++ sep ++ join sep rest)%string
  end.

(** [needle in hay] *)
Fixpoint str_in (needle hay : string) : bool :=
  if String.prefix needle hay then true
  else match hay with
       | EmptyString => false
       | String _ t => str_in needle t
       end.

(** ** Lists *)

(** [sum(xs)] over floats: the accumulator starts at [0] and the elements
    are added from left to right. *)
Definition sum (xs : list float) : float :=
  fold_left PrimFloat.add xs 0%float.

(** [any(p(x) for x in xs)] *)
Definition any {A : Type} (p : A -> bool) (xs : list A) : bool := existsb p xs.

(** Position a Python index [i] denotes in a list of length [n]: an index in
    [-n, -1] counts from the end; anything outside [-n, n-1] is no position. *)
Definition position (n : nat) (i : Z) : option nat :=
  if ((0 <=? i) && (i <? Z.of_nat n))%Z then Some (Z.to_nat i)
  else if ((- Z.of_nat n <=? i) && (i <? 0))%Z then Some (Z.to_nat (Z.of_nat n + i))
  else None.

Definition remove_at {A : Type} (k : nat) (xs : list A) : list A :=
  firstn k xs ++ skipn (S k) xs.

(** [xs.pop(i)]: the popped element and the list afterwards, or
    [IndexError] (the list is not touched then). *)
Definition pop {A : Type} (xs : list A) (i : Z) : result (A * list A) :=
  match position (List.length xs) i with
  | Some k =>
      match nth_error xs k with
      | Some x => Ok (x, remove_at k xs)
      | None => Raise IndexError
      end
  | None => Raise IndexError
  end.

(** ** Dictionaries, in insertion order *)

Definition dict (V : Type) : Type := list (string * V).

Fixpoint get {V : Type} (d : dict V) (k : string) : option V :=
  match d with
  | [] => None
  | (k', v) :: rest => if String.eqb k' k then Some v else get rest k
  end.

(** [d[k] = v]: an existing key keeps its place, a new key goes last. *)
Fixpoint set {V : Type} (d : dict V) (k : string) (v : V) : dict V :=
  match d with
  | [] => [(k, v)]
  | (k', v') :: rest =>
      if String.eqb k' k then (k', v) :: rest else (k', v') :: set rest k v
  end.

Definition keys {V : Type} (d : dict V) : list string := map fst d.

(** [d[k]], raising [KeyError] on a missing key. *)
Definition getitem {V : Type} (d : dict V) (k : string) : result V :=
  match get d k with
  | Some v => Ok v
  | None => Raise (KeyError k)
  end.

(** A float that is neither a NaN nor an infinity. *)
Definition finite (x : float) : bool :=
  match Prim2SF x with
  | S754_zero _ | S754_finite _ _ _ => true
  | S754_infinity _ | S754_nan => false
  end.

(** [xs.index(x)]: the first position of [x], or [ValueError]. *)
Fixpoint index (xs : list string) (x : string) : result nat :=
  match xs with
  | [] => Raise ValueError
  | y :: rest =>
      if String.eqb y x then Ok 0%nat
      else i <- index rest x ;; Ok (S i)
  end.

(** [xs[i]] for a position counted from the front. *)
Definition list_getitem {A : Type} (xs : list A) (i : nat) : result A :=
  match nth_error xs i with
  | Some x => Ok x
  | None => Raise IndexError
  end.

(** [[g(x) for x in xs]] where [g] may raise. *)
Fixpoint comprehension {A B : Type} (g : A -> result B) (xs : list A)
    : result (list B) :=
  match xs with
  | [] => Ok []
  | x :: rest =>
      y <- g x ;;
      ys <- comprehension g rest ;;
      Ok (y :: ys)
  end.

End Py.

Import Py.

(* ================================================================== *)
(** * load_srt_database.py *)
(* ================================================================== *)

Module Loader.

(** What [float(code['hours'])] does with the value stored under ['hours']:
    a JSON number or a numeric string converts to a float; other text raises
    [ValueError]; [null], a list or an object raises [TypeError]. *)
Inductive raw_hours : Type :=
| Numeric (f : float)
| BadText
| BadType.

Definition py_float (h : raw_hours) : result float :=
  match h with
  | Numeric f => Ok f
  | BadText => Raise ValueError
  | BadType => Raise TypeError
  end.

(** One operation record of the JSON file: [{code, description, hours}]. *)
Record raw_code : Type := mk_raw_code {
  raw_code_code : string;
  raw_description : string;
  raw_hours_value : raw_hours
}.

(** One row of the DataFrame. *)
Record row : Type := mk_row {
  model_key : string;
  equipment_type : string;
  model_name : string;
  code : string;
  description : string;
  hours : float
}.

(** One value of [model_lookup]. *)
Record model_info : Type := mk_model_info {
  display_name : string;
  info_equipment_type : string;
  info_model_name : string;
  num_codes : nat
}.

Definition DataFrame : Type := list row.

(** The three files the loader looks for, each absent or holding its parsed
    content. *)
Record files : Type := mk_files {
  srt_database_organized_json : option (dict (list raw_code));
  srt_database_pkl : option DataFrame;
  model_lookup_pkl : option (dict model_info)
}.

(** Lines 30-32: [(equipment_type, model_name)] of a model key. *)
Definition parse_model_key (model_key : string) : string * string :=
  let parts := split "_" model_key in
  let equipment_type := title (replace_char "_" " " (hd EmptyString parts)) in
  let model_name :=
    if (1 <? List.length parts)%nat then join "_" (tl parts)
    else hd EmptyString parts in
  (equipment_type, model_name).

(** f"{equipment_type} {model_name}" *)
Definition format_display_name (equipment_type model_name : string) : string :=
  (equipment_type ++ " " ++ model_name)%string.

(** Lines 43-51: the inner loop, appending one row per code. *)
Definition append_codes (model_key equipment_type model_name : string)
    (codes : list raw_code) (all_codes : list row) : result (list row) :=
  fold_left
    (fun acc c =>
       rows <- acc ;;
       h <- py_float (raw_hours_value c) ;;
       Ok (rows ++ [mk_row model_key equipment_type model_name
                           (raw_code_code c) (raw_description c) h]))
    codes (Ok all_codes).

(** Lines 28-51: one iteration of the loop over [srt_data.items()]. *)
Definition load_model (st : list row * dict model_info)
    (item : string * list raw_code) : result (list row * dict model_info) :=
  let '(all_codes, model_lookup) := st in
  let '(model_key, codes) := item in
  let '(equipment_type, model_name) := parse_model_key model_key in
  let model_lookup' :=
    set model_lookup model_key
        (mk_model_info (format_display_name equipment_type model_name)
                       equipment_type model_name (List.length codes)) in
  all_codes' <- append_codes model_key equipment_type model_name codes all_codes ;;
  Ok (all_codes', model_lookup').

(** Lines 25-55: the JSON branch. *)
Definition load_json (srt_data : dict (list raw_code))
    : result (DataFrame * dict model_info) :=
  fold_left (fun acc item => st <- acc ;; load_model st item)
            srt_data (Ok ([], [])).

(** [series.unique()]: the distinct values, in order of first appearance. *)
Fixpoint unique_from (seen : list string) (xs : list string) : list string :=
  match xs with
  | [] => []
  | x :: rest =>
      if existsb (String.eqb x) seen then unique_from seen rest
      else x :: unique_from (x :: seen) rest
  end.

Definition unique (xs : list string) : list string := unique_from [] xs.

(** [df[df['model_key'] == model_key]] *)
Definition rows_of (df : DataFrame) (k : string) : DataFrame :=
  filter (fun r => String.eqb (model_key r) k) df.

(** Lines 70-78: the lookup rebuilt from the rows. *)
Definition generate_lookup (df : DataFrame) : result (dict model_info) :=
  fold_left
    (fun acc k =>
       model_lookup <- acc ;;
       match rows_of df k with
       | model_data :: _ =>
           Ok (set model_lookup k
                   (mk_model_info
                      (format_display_name (equipment_type model_data)
                                           (model_name model_data))
                      (equipment_type model_data) (model_name model_data)
                      (List.length (rows_of df k))))
       | [] => Raise IndexError
       end)
    (unique (map model_key df)) (Ok []).

Definition not_found_message : string :=
  "No database found! Please add 'srt_database_organized.json' to your repo."
  ++ String "010" "Or run convert_json_to_pickle.py if you have the JSON file.".

Definition load_srt_database (fs : files) : result (DataFrame * dict model_info) :=
  match srt_database_organized_json fs with
  | Some srt_data => load_json srt_data
  | None =>
      match srt_database_pkl fs with
      | Some df =>
          match model_lookup_pkl fs with
          | Some model_lookup => Ok (df, model_lookup)
          | None => model_lookup <- generate_lookup df ;; Ok (df, model_lookup)
          end
      | None => Raise (FileNotFoundError not_found_message)
      end
  end.

(** Characters with a meaning of their own in a regular expression. *)
Definition regex_special (c : ascii) : bool :=
  existsb (Ascii.eqb c)
    (list_ascii_of_string ".^$*+?{}[]()|\").

Definition regex_literal (pattern : string) : bool :=
  forallb (fun c => negb (regex_special c)) (list_ascii_of_string pattern).

(** Lines 99-103. [series.str.contains(pattern)] takes [pattern] as a
    regular expression: a pattern without special characters matches where it
    occurs as a substring; the matching of other patterns is outside this
    model ([None]). *)
Definition search_srt_codes (df : DataFrame) (query : string) : option DataFrame :=
  let query_lower := lower query in
  if regex_literal query_lower then
    Some (filter (fun r => str_in query_lower (lower (description r))) df)
  else None.

(** Lines 105-107. *)
Definition get_model_codes (df : DataFrame) (model_key : string) : DataFrame :=
  rows_of df model_key.

(** Lines 89-97: the model keys grouped by equipment type. *)
Definition get_models_by_type (model_lookup : dict model_info)
    : dict (list string) :=
  fold_left
    (fun by_type entry =>
       let '(model_key, info) := entry in
       let eq_type := info_equipment_type info in
       let by_type :=
         match get by_type eq_type with
         | None => set by_type eq_type []
         | Some _ => by_type
         end in
       match get by_type eq_type with
       | Some group => set by_type eq_type (group ++ [model_key])
       | None => by_type
       end)
    model_lookup [].

End Loader.

(* ================================================================== *)
(** * The quote tool: what both variants of the script share *)
(* ================================================================== *)

Module Quote.

(** An operation of [database[model]]: [{code, description, hours}]. *)
Record operation : Type := mk_operation {
  op_code : string;
  op_description : string;
  op_hours : float
}.

(** An element of [st.session_state.quote_items]. *)
Record quote_item : Type := mk_quote_item {
  item_model : string;
  item_code : string;
  item_description : string;
  item_hours : float
}.

(** [st.session_state.difficulty_factors], keys in insertion order. *)
Record difficulty_factors : Type := mk_factors {
  age : float;
  condition : float;
  location : float;
  manufacturer : float;
  urgency : float;
  complexity : float
}.

(** [difficulty_factors.values()] *)
Definition values (f : difficulty_factors) : list float :=
  [age f; condition f; location f; manufacturer f; urgency f; complexity f].

Record session_state : Type := mk_session {
  quote_items : list quote_item;
  factors : difficulty_factors
}.

Definition initial_factors : difficulty_factors :=
  mk_factors 1 1 1 1 1 1.

Definition initial_session : session_state := mk_session [] initial_factors.

Local Open Scope float_scope.

Definition DEFAULT_LABOR_RATE : float := 125.00.

Definition DIFFICULTY_FACTORS_age : dict float :=
  [ ("0-2 years (New)", 1.0);
    ("3-5 years (Like New)", 1.05);
    ("6-8 years (Good)", 1.15);
    ("9-12 years (Average)", 1.25);
    ("13-15 years (Older)", 1.35);
    ("16-20 years (Old)", 1.50);
    ("20+ years (Very Old)", 1.75) ]%string.

Definition DIFFICULTY_FACTORS_condition : dict float :=
  [ ("Excellent - Well maintained", 1.0);
    ("Good - Normal wear", 1.10);
    ("Fair - Some issues", 1.25);
    ("Poor - Multiple problems", 1.40);
    ("Severe - Major overhaul needed", 1.60) ]%string.

Definition DIFFICULTY_FACTORS_location : dict float :=
  [ ("Shop - Full facilities", 1.0);
    ("On-site - Accessible", 1.15);
    ("On-site - Limited access", 1.30);
    ("Remote - Difficult terrain", 1.50);
    ("Remote - Extreme conditions", 1.75) ]%string.

Definition DIFFICULTY_FACTORS_manufacturer : dict float :=
  [ ("CNH (Case/New Holland)", 1.0);
    ("Caterpillar", 1.05);
    ("John Deere", 1.05);
    ("Komatsu", 1.10);
    ("Volvo", 1.10);
    ("Hitachi", 1.15);
    ("Liebherr", 1.15);
    ("JCB", 1.08);
    ("Doosan", 1.12);
    ("Kubota", 1.05);
    ("Other", 1.20) ]%string.

Definition DIFFICULTY_FACTORS_urgency : dict float :=
  [ ("Standard - Normal schedule", 1.0);
    ("Priority - Within 3 days", 1.20);
    ("Rush - Next day", 1.50);
    ("Emergency - Same day", 2.00) ]%string.

Definition DIFFICULTY_FACTORS_complexity : dict float :=
  [ ("Routine - Standard service", 1.0);
    ("Moderate - Some diagnosis needed", 1.15);
    ("Complex - Extensive troubleshooting", 1.30);
    ("Severe - Complete tear-down", 1.50) ]%string.

(** The six [selectbox] choices of the second tab. *)
Record selections : Type := mk_selections {
  age_selection : string;
  condition_selection : string;
  location_selection : string;
  mfr_selection : string;
  urgency_selection : string;
  complexity_selection : string
}.

(** Tab 2: every factor is assigned the table value of its selected label. *)
Definition tab2 (st : session_state) (sel : selections) : result session_state :=
  a <- getitem DIFFICULTY_FACTORS_age (age_selection sel) ;;
  c <- getitem DIFFICULTY_FACTORS_condition (condition_selection sel) ;;
  l <- getitem DIFFICULTY_FACTORS_location (location_selection sel) ;;
  m <- getitem DIFFICULTY_FACTORS_manufacturer (mfr_selection sel) ;;
  u <- getitem DIFFICULTY_FACTORS_urgency (urgency_selection sel) ;;
  x <- getitem DIFFICULTY_FACTORS_complexity (complexity_selection sel) ;;
  Ok (mk_session (quote_items st) (mk_factors a c l m u x)).

(** A factor set whose every value stands in the table of its factor. *)
Definition from_tables (f : difficulty_factors) : Prop :=
  In (age f) (map snd DIFFICULTY_FACTORS_age) /\
  In (condition f) (map snd DIFFICULTY_FACTORS_condition) /\
  In (location f) (map snd DIFFICULTY_FACTORS_location) /\
  In (manufacturer f) (map snd DIFFICULTY_FACTORS_manufacturer) /\
  In (urgency f) (map snd DIFFICULTY_FACTORS_urgency) /\
  In (complexity f) (map snd DIFFICULTY_FACTORS_complexity).

(** [total_multiplier = 1.0; for v in factors.values(): total_multiplier *= v] *)
Definition compose_multiplier (f : difficulty_factors) : float :=
  fold_left PrimFloat.mul (values f) 1.0.

(** A row of [quote_data], with the numbers the script then formats. *)
Record quote_row : Type := mk_quote_row {
  row_code : string;
  row_description : string;
  row_model : string;
  row_base_hours : float;
  adjusted_item_hours : float;
  item_cost : float
}.

Record totals : Type := mk_totals {
  base_hours : float;
  total_multiplier : float;
  adjusted_hours : float;
  total_cost : float;
  quote_data : list quote_row
}.

(** Tab 3, the totals and the detailed breakdown. *)
Definition tab3_totals (items : list quote_item) (f : difficulty_factors)
    (labor_rate : float) : totals :=
  let base_hours := Py.sum (map item_hours items) in
  let total_multiplier := compose_multiplier f in
  let adjusted_hours := base_hours * total_multiplier in
  let total_cost := adjusted_hours * labor_rate in
  let quote_data :=
    fold_left
      (fun quote_data item =>
         let adjusted_item_hours := item_hours item * total_multiplier in
         let item_cost := adjusted_item_hours * labor_rate in
         quote_data ++ [mk_quote_row (item_code item) (item_description item)
                                     (item_model item) (item_hours item)
                                     adjusted_item_hours item_cost])
      items [] in
  mk_totals base_hours total_multiplier adjusted_hours total_cost quote_data.

Inductive tab3_view : Type :=
| NoOperationsWarning
| Review (t : totals).

(** Tab 3 as a whole: an empty quote gets the warning and no totals. *)
Definition tab3 (st : session_state) (labor_rate : float) : tab3_view :=
  match quote_items st with
  | [] => NoOperationsWarning
  | _ :: _ => Review (tab3_totals (quote_items st) (factors st) labor_rate)
  end.

(** The remove button of item [i]: [quote_items.pop(i)]. The second
    component is the exception raised, if any. *)
Definition remove_item (st : session_state) (i : Z) : session_state * option exn :=
  match pop (quote_items st) i with
  | Ok (_, items') => (mk_session items' (factors st), None)
  | Raise e => (st, Some e)
  end.

(** The Clear Quote button: [quote_items = []]. *)
Definition clear_quote (st : session_state) : session_state :=
  mk_session [] (factors st).

Definition MANUFACTURERS : list string :=
  [ "CNH (Case/New Holland)"; "Caterpillar"; "John Deere"; "Komatsu"; "Volvo";
    "Hitachi"; "Liebherr"; "JCB"; "Doosan"; "Kubota"; "Other" ]%string.

(** Tab 2, the [index] argument of the manufacturer [selectbox]: the entry
    preselected for the manufacturer chosen in the sidebar. *)
Definition default_mfr_index (manufacturer : string) : result nat :=
  let options := keys DIFFICULTY_FACTORS_manufacturer in
  if existsb (String.eqb (hd EmptyString (split " " manufacturer))) options
  then index options
             (if str_in " " manufacturer
              then hd EmptyString (split " " manufacturer)
              else manufacturer)
  else Ok 0%nat.

Inductive impact_delta : Type :=
| PercentAbove (total_mult : float)
| Standard.

(** Tab 2, Combined Impact: the delta under the total multiplier. *)
Definition combined_impact (f : difficulty_factors) : float * impact_delta :=
  let total_mult := compose_multiplier f in
  (total_mult, if 1.0 <? total_mult then PercentAbove total_mult else Standard).

End Quote.

(* ================================================================== *)
(** * streamlit_quote_tool_pro.py *)
(* ================================================================== *)

Module Pro.
Import Quote.

Definition database : Type := dict (list operation).

(** Lines 306-309: the models a search goes through. *)
Definition search_models (db : database) (selected_model : string) : list string :=
  if String.eqb selected_model "All Models" then keys db else [selected_model].

(** Lines 313-316: [code_match or desc_match]. *)
Definition op_matches (search_lower : string) (op : operation) : bool :=
  let code_match := str_in search_lower (lower (op_code op)) in
  let desc_match := str_in search_lower (lower (op_description op)) in
  code_match || desc_match.

Definition result_of (model : string) (op : operation) : quote_item :=
  mk_quote_item model (op_code op) (op_description op) (op_hours op).

(** Lines 312-322: the inner loop over the operations of one model. *)
Definition search_model (search_lower model : string) (ops : list operation)
    (results : list quote_item) : list quote_item :=
  fold_left
    (fun results op =>
       if op_matches search_lower op then results ++ [result_of model op]
       else results)
    ops results.

(** Lines 302-322: the results of a search. *)
Definition search (db : database) (selected_model search_query : string)
    : result (list quote_item) :=
  let search_lower := lower search_query in
  fold_left
    (fun acc model =>
       results <- acc ;;
       ops <- getitem db model ;;
       Ok (search_model search_lower model ops results))
    (search_models db selected_model) (Ok []).

Inductive sidebar_view : Type :=
| EnterSearchTerms
| NoResultsFound
| Found (results shown : list quote_item).

(** Lines 299-351: an empty query searches nothing; ten results are shown. *)
Definition sidebar (db : database) (selected_model search_query : string)
    : result sidebar_view :=
  match search_query with
  | EmptyString => Ok EnterSearchTerms
  | String _ _ =>
      results <- search db selected_model search_query ;;
      match results with
      | [] => Ok NoResultsFound
      | _ :: _ => Ok (Found results (firstn 10 results))
      end
  end.

(** Line 340: the Add button appends the result, whatever the quote holds. *)
Definition add_result (st : session_state) (r : quote_item) : session_state :=
  mk_session (quote_items st ++ [r]) (factors st).

End Pro.

(* ================================================================== *)
(** * streamlit_quote_tool_pro_FIXED.py *)
(* ================================================================== *)

Module Fixed.
Import Quote.

Definition database : Type := dict (list operation).

Definition operation_of_row (r : Loader.row) : operation :=
  mk_operation (Loader.code r) (Loader.description r) (Loader.hours r).

(** Lines 222-232: the DataFrame regrouped by model key. *)
Definition to_database (df : Loader.DataFrame) : database :=
  fold_left
    (fun db k => set db k (map operation_of_row (Loader.rows_of df k)))
    (Loader.unique (map Loader.model_key df)) [].

(** Lines 347-354: the operations listed for the selected model. *)
Definition filtered_ops (available_operations : list operation)
    (search_term : string) : list operation :=
  match search_term with
  | EmptyString => available_operations
  | String _ _ =>
      filter
        (fun op =>
           str_in (lower search_term) (lower (op_description op))
           || str_in (lower search_term) (lower (op_code op)))
        available_operations
  end.

Inductive add_outcome : Type :=
| Added
| AlreadyInQuote.

(** Lines 371-385: the Add button of a listed operation. *)
Definition add_operation (st : session_state) (op : operation)
    (selected_display : string) : session_state * add_outcome :=
  let quote_item :=
    mk_quote_item selected_display (op_code op) (op_description op) (op_hours op) in
  if negb (any (fun item => String.eqb (item_code item) (op_code op))
               (quote_items st))
  then (mk_session (quote_items st ++ [quote_item]) (factors st), Added)
  else (st, AlreadyInQuote).

Inductive manual_outcome : Type :=
| ManualAdded
| FillInAllFields.

Definition truthy (s : string) : bool :=
  match s with
  | EmptyString => false
  | String _ _ => true
  end.

(** Lines 400-417: manual entry, for the other manufacturers. *)
Definition manual_entry (st : session_state)
    (manufacturer manual_code manual_desc : string) (manual_hours : float)
    : session_state * manual_outcome :=
  if truthy manual_code && truthy manual_desc then
    (mk_session
       (quote_items st
        ++ [mk_quote_item (manufacturer ++ " (Manual Entry)")%string
                          manual_code manual_desc manual_hours])
       (factors st),
     ManualAdded)
  else (st, FillInAllFields).

(** Lines 299-320: the model key behind the selected display name. *)
Definition select_model (model_metadata : dict Loader.model_info)
    (selected_type selected_display : string) : result string :=
  let models_by_type := Loader.get_models_by_type model_metadata in
  available_models <- getitem models_by_type selected_type ;;
  model_display_names <-
    comprehension
      (fun mk => info <- getitem model_metadata mk ;; Ok (Loader.display_name info))
      available_models ;;
  i <- index model_display_names selected_display ;;
  list_getitem available_models i.

(** Lines 323-326: the operations listed for the selection. *)
Definition available_operations (db : database)
    (model_metadata : dict Loader.model_info)
    (selected_type selected_display : string) : result (list operation) :=
  selected_model_key <- select_model model_metadata selected_type selected_display ;;
  getitem db selected_model_key.

End Fixed.

Import Quote.

(* ================================================================== *)
(** * Vocabulary of the statements *)
(* ================================================================== *)

(** [needle] occurs in [hay] as a substring. *)
Definition occurs_in (needle hay : string) : Prop :=
  exists before after, hay = (before ++ needle ++ after)%string.

(** Case-insensitive containment of [query] in [text]. *)
Definition contains_ci (query text : string) : Prop :=
  occurs_in (lower query) (lower text).

(** The results one model contributes to a search, in the order of its
    operations. *)
Definition model_matches (search_lower model : string)
    (ops : list operation) : list quote_item :=
  map (Pro.result_of model) (filter (Pro.op_matches search_lower) ops).

(** The same for the model stored under a key of the database. *)
Definition matches_of (db : Pro.database) (search_lower model : string)
    : list quote_item :=
  match get db model with
  | Some ops => model_matches search_lower model ops
  | None => []
  end.

(** [c] is a character of [s]. *)
Fixpoint mentions (c : ascii) (s : string) : bool :=
  match s with
  | EmptyString => false
  | String d t => Ascii.eqb d c || mentions c t
  end.

(** The float an operation record of the JSON file carries, when [float()]
    accepts its hours. *)
Definition hours_of (c : Loader.raw_code) : option float :=
  match Loader.raw_hours_value c with
  | Loader.Numeric f => Some f
  | _ => None
  end.

(** A well-formed source mapping: the keys are distinct, as those of a JSON
    object read into a [dict] are, and the hours of every record convert. *)
Definition well_formed (srt_data : dict (list Loader.raw_code)) : Prop :=
  NoDup (keys srt_data) /\
  Forall (fun item => Forall (fun c => hours_of c <> None) (snd item)) srt_data.

(** The rows and the lookup entry one model of the source gives. *)
Definition rows_for (item : string * list Loader.raw_code) : list Loader.row :=
  let '(equipment_type, model_name) := Loader.parse_model_key (fst item) in
  map (fun c =>
         Loader.mk_row (fst item) equipment_type model_name
                       (Loader.raw_code_code c) (Loader.raw_description c)
                       (match hours_of c with Some f => f | None => 0%float end))
      (snd item).

Definition info_for (item : string * list Loader.raw_code) : Loader.model_info :=
  let '(equipment_type, model_name) := Loader.parse_model_key (fst item) in
  Loader.mk_model_info
    (Loader.format_display_name equipment_type model_name)
    equipment_type model_name (List.length (snd item)).

(** [et] and [mn] are the equipment type and model name the loader derives
    from the key [k]. *)
Definition derived_from_key (k et mn : string) : Prop :=
  et = fst (Loader.parse_model_key k) /\ mn = snd (Loader.parse_model_key k).

(** What the loader keeps true of the rows and of the lookup. *)
Definition names_derived (st : list Loader.row * dict Loader.model_info) : Prop :=
  Forall (fun r => derived_from_key (Loader.model_key r)
                     (Loader.equipment_type r) (Loader.model_name r)) (fst st) /\
  forall k info, get (snd st) k = Some info ->
    derived_from_key k (Loader.info_equipment_type info)
                     (Loader.info_model_name info) /\
    Loader.display_name info
    = (Loader.info_equipment_type info ++ " "
       ++ Loader.info_model_name info)%string.


(** The operations regrouped from the rows of one model. *)
Definition ops_of_rows (rows : Loader.DataFrame) : option (list operation) :=
  match rows with
  | [] => None
  | _ :: _ => Some (map Fixed.operation_of_row rows)
  end.

(** The model keys of the entries of one equipment type, in order. *)
Definition keys_of_type (model_lookup : dict Loader.model_info)
    (eq_type : string) : list string :=
  map fst
    (filter (fun entry => String.eqb (Loader.info_equipment_type (snd entry)) eq_type)
            model_lookup).

(** The item codes of a quote. *)
Definition codes_of (st : session_state) : list string :=
  map item_code (quote_items st).

(* ================================================================== *)
(** * Properties *)
(* ================================================================== *)

(** ** Loops that append *)

Lemma fold_left_append_map (A B : Type) (g : A -> B) (xs : list A) (acc : list B) :
  fold_left (fun acc x => acc ++ [g x]) xs acc = acc ++ map g xs.
Proof.
  revert acc. induction xs as [|x xs IH]; intros acc; simpl.
  - now rewrite app_nil_r.
  - rewrite IH, <- app_assoc. reflexivity.
Qed.

Lemma fold_left_append_filter (A B : Type) (p : A -> bool) (g : A -> B)
    (xs : list A) (acc : list B) :
  fold_left (fun acc x => if p x then acc ++ [g x] else acc) xs acc
  = acc ++ map g (filter p xs).
Proof.
  revert acc. induction xs as [|x xs IH]; intros acc; simpl.
  - now rewrite app_nil_r.
  - rewrite IH. destruct (p x); simpl.
    + now rewrite <- app_assoc.
    + reflexivity.
Qed.

(** ** Pricing *)

Lemma quote_data_map items f labor_rate :
  quote_data (tab3_totals items f labor_rate)
  = map (fun item =>
           mk_quote_row (item_code item) (item_description item)
                        (item_model item) (item_hours item)
                        (item_hours item * compose_multiplier f)
                        (item_hours item * compose_multiplier f * labor_rate))
        items.
Proof.
  unfold tab3_totals; simpl.
  now rewrite fold_left_append_map.
Qed.

(** C1. The totals of the review tab: the base hours are the hours of the
    items added up from left to right, the multiplier is the product of the
    six factors, the adjusted hours are base hours times multiplier, the
    total cost is adjusted hours times labor rate; the breakdown has one row
    per item, in order, each priced with that same multiplier and rate. *)
Theorem pricing_totals_and_lines (items : list quote_item)
    (f : difficulty_factors) (labor_rate : float) :
  let t := tab3_totals items f labor_rate in
  base_hours t = fold_left PrimFloat.add (map item_hours items) 0%float /\
  total_multiplier t
    = (1 * age f * condition f * location f * manufacturer f
       * urgency f * complexity f)%float /\
  adjusted_hours t = (base_hours t * total_multiplier t)%float /\
  total_cost t = (adjusted_hours t * labor_rate)%float /\
  List.length (quote_data t) = List.length items /\
  forall i item, nth_error items i = Some item ->
    exists r, nth_error (quote_data t) i = Some r /\
      row_code r = item_code item /\
      row_base_hours r = item_hours item /\
      adjusted_item_hours r = (item_hours item * total_multiplier t)%float /\
      item_cost r = (adjusted_item_hours r * labor_rate)%float.
Proof.
  intros t. subst t.
  repeat split; try reflexivity.
  - rewrite quote_data_map. apply length_map.
  - intros i item Hi. rewrite quote_data_map.
    rewrite (map_nth_error _ _ _ Hi).
    eexists. split; [reflexivity|].
    repeat split; reflexivity.
Qed.

(** ** The empty quote *)

Lemma zero_times_finite (r : float) :
  finite r = true -> (0 * r =? 0)%float = true.
Proof.
  unfold finite. intros Hr.
  rewrite eqb_spec, mul_spec.
  change (Prim2SF 0) with (S754_zero false).
  destruct (Prim2SF r) as [s| s | |s m e]; try discriminate; destruct s; reflexivity.
Qed.

(** Whatever is selected in the six tables, the composed multiplier is
    finite and zero hours times it are [0]. *)
Lemma table_products_checked :
  forallb (fun a =>
  forallb (fun c =>
  forallb (fun l =>
  forallb (fun m =>
  forallb (fun u =>
  forallb (fun x =>
    let p := compose_multiplier (mk_factors a c l m u x) in
    finite p && PrimFloat.Leibniz.eqb (0 * p) 0)
    (map snd DIFFICULTY_FACTORS_complexity))
    (map snd DIFFICULTY_FACTORS_urgency))
    (map snd DIFFICULTY_FACTORS_manufacturer))
    (map snd DIFFICULTY_FACTORS_location))
    (map snd DIFFICULTY_FACTORS_condition))
    (map snd DIFFICULTY_FACTORS_age) = true.
Proof. vm_compute. reflexivity. Qed.

Lemma from_tables_product (f : difficulty_factors) :
  from_tables f ->
  finite (compose_multiplier f) = true /\ (0 * compose_multiplier f)%float = 0%float.
Proof.
  destruct f as [a c l m u x].
  intros (Ha & Hc & Hl & Hm & Hu & Hx); simpl in Ha, Hc, Hl, Hm, Hu, Hx.
  pose proof table_products_checked as H.
  rewrite forallb_forall in H. specialize (H a Ha).
  rewrite forallb_forall in H. specialize (H c Hc).
  rewrite forallb_forall in H. specialize (H l Hl).
  rewrite forallb_forall in H. specialize (H m Hm).
  rewrite forallb_forall in H. specialize (H u Hu).
  rewrite forallb_forall in H. specialize (H x Hx).
  apply andb_true_iff in H. destruct H as [Hfin Heq].
  split; [exact Hfin|]. now apply FloatAxioms.Leibniz.eqb_spec.
Qed.

(** C2. With the six factors at 1.0 the composed multiplier is exactly 1.0.
    The totals of an empty quote, for factors selected from the tables and a
    finite labor rate: base hours 0, adjusted hours 0, and a total cost that
    compares equal to 0. *)
Theorem neutral_multiplier_and_empty_quote :
  compose_multiplier (mk_factors 1 1 1 1 1 1) = 1%float /\
  forall (f : difficulty_factors) (labor_rate : float),
    from_tables f -> finite labor_rate = true ->
    let t := tab3_totals [] f labor_rate in
    base_hours t = 0%float /\
    adjusted_hours t = 0%float /\
    (total_cost t =? 0)%float = true.
Proof.
  split; [reflexivity|].
  intros f labor_rate Hf Hr t. subst t.
  destruct (from_tables_product Hf) as [_ Hz].
  unfold tab3_totals; simpl. change (Py.sum []) with 0%float.
  rewrite Hz. repeat split.
  now apply zero_times_finite.
Qed.

(** A concrete factor set and rate: the factors of the tables at which
    the empty quote is priced. *)
Lemma neutral_multiplier_and_empty_quote_witness :
  from_tables (mk_factors 1.25 1.10 1.0 1.05 1.0 1.0) /\
  finite 125.0 = true /\
  let t := tab3_totals [] (mk_factors 1.25 1.10 1.0 1.05 1.0 1.0) 125.0 in
  base_hours t = 0%float /\ adjusted_hours t = 0%float /\
  (total_cost t =? 0)%float = true.
Proof.
  assert (Hf : from_tables (mk_factors 1.25 1.10 1.0 1.05 1.0 1.0))
    by (unfold from_tables; simpl; auto 20).
  assert (Hr : finite 125.0 = true) by reflexivity.
  split; [exact Hf|]. split; [exact Hr|].
  exact (proj2 neutral_multiplier_and_empty_quote _ _ Hf Hr).
Defined.

(** The review tab itself shows a warning for an empty quote. *)
Lemma tab3_empty_quote (f : difficulty_factors) (labor_rate : float) :
  tab3 (mk_session [] f) labor_rate = NoOperationsWarning.
Proof. reflexivity. Qed.

Lemma getitem_In (V : Type) (d : dict V) (k : string) (v : V) :
  getitem d k = Ok v -> In v (map snd d).
Proof.
  unfold getitem. induction d as [|[k' v'] d IH]; simpl; [discriminate|].
  destruct (String.eqb k' k).
  - intros [= ->]. now left.
  - intros H. right. now apply IH.
Qed.

(** The factor sets a session holds: the initial one and those the second
    tab assigns are selected from the tables. *)
Lemma session_factors_from_tables :
  from_tables initial_factors /\
  forall st sel st', tab2 st sel = Ok st' -> from_tables (factors st').
Proof.
  split.
  - unfold from_tables; simpl; auto 20.
  - intros st sel st'. unfold tab2.
    destruct (getitem DIFFICULTY_FACTORS_age (age_selection sel)) as [a|] eqn:Ha;
      [|discriminate].
    destruct (getitem DIFFICULTY_FACTORS_condition (condition_selection sel))
      as [c|] eqn:Hc; [|discriminate].
    destruct (getitem DIFFICULTY_FACTORS_location (location_selection sel))
      as [l|] eqn:Hl; [|discriminate].
    destruct (getitem DIFFICULTY_FACTORS_manufacturer (mfr_selection sel))
      as [m|] eqn:Hm; [|discriminate].
    destruct (getitem DIFFICULTY_FACTORS_urgency (urgency_selection sel))
      as [u|] eqn:Hu; [|discriminate].
    destruct (getitem DIFFICULTY_FACTORS_complexity (complexity_selection sel))
      as [x|] eqn:Hx; [|discriminate].
    cbn [bind]. intros [= <-]. unfold from_tables. cbn [factors age condition
      location manufacturer urgency complexity].
    repeat split; eapply getitem_In; eassumption.
Qed.

(** ** Substrings *)

Lemma prefix_spec (p s : string) :
  String.prefix p s = true <-> exists after, s = (p ++ after)%string.
Proof.
  revert s. induction p as [|c p IH]; intros s.
  - split; [intros _; now exists s | now destruct s].
  - destruct s as [|d s]; simpl.
    + split; [discriminate | intros [after H]; discriminate].
    + destruct (ascii_dec c d) as [->|Hcd].
      * rewrite IH. split; intros [after H]; exists after.
        -- now rewrite H.
        -- now inversion H.
      * split; [discriminate|].
        intros [after H]. inversion H. congruence.
Qed.

Lemma str_in_spec (needle hay : string) :
  str_in needle hay = true <-> occurs_in needle hay.
Proof.
  unfold occurs_in. induction hay as [|c hay IH].
  - cbn [str_in]. destruct (String.prefix needle "") eqn:Hp.
    + apply prefix_spec in Hp. destruct Hp as [after H].
      split; [intros _; now exists "", after | reflexivity].
    + split; [discriminate|].
      intros (before & after & H).
      destruct before; simpl in H.
      * assert (String.prefix needle "" = true) by (apply prefix_spec; eauto).
        congruence.
      * discriminate.
  - cbn [str_in]. destruct (String.prefix needle (String c hay)) eqn:Hp.
    + apply prefix_spec in Hp. destruct Hp as [after H].
      split; [intros _; now exists "", after | reflexivity].
    + rewrite IH. split.
      * intros (before & after & H). exists (String c before), after.
        simpl. now rewrite H.
      * intros (before & after & H). destruct before as [|b before]; simpl in H.
        -- assert (String.prefix needle (String c hay) = true)
             by (apply prefix_spec; eauto).
           congruence.
        -- inversion H. eauto.
Qed.

(** ** Search *)

Lemma op_matches_spec (query : string) (op : operation) :
  Pro.op_matches (lower query) op = true <->
  contains_ci query (op_code op) \/ contains_ci query (op_description op).
Proof.
  unfold Pro.op_matches, contains_ci.
  rewrite orb_true_iff, !str_in_spec. reflexivity.
Qed.

Lemma search_model_eq (search_lower model : string) (ops : list operation)
    (results : list quote_item) :
  Pro.search_model search_lower model ops results
  = results ++ model_matches search_lower model ops.
Proof.
  unfold Pro.search_model, model_matches.
  apply fold_left_append_filter.
Qed.

Lemma get_In (V : Type) (d : dict V) (k : string) (v : V) :
  get d k = Some v -> In (k, v) d.
Proof.
  induction d as [|[k' v'] d IH]; simpl; [discriminate|].
  destruct (String.eqb_spec k' k) as [->|Hne].
  - intros [= ->]. now left.
  - intros H. right. now apply IH.
Qed.

Lemma In_get (V : Type) (d : dict V) (k : string) (v : V) :
  NoDup (keys d) -> In (k, v) d -> get d k = Some v.
Proof.
  unfold keys. induction d as [|[k' v'] d IH]; simpl; [contradiction|].
  intros Hnd [Heq|Hin].
  - injection Heq as -> ->. now rewrite String.eqb_refl.
  - inversion Hnd as [|? ? Hnotin Hnd']; subst.
    destruct (String.eqb_spec k' k) as [->|Hne].
    + exfalso. apply Hnotin. apply (in_map fst) in Hin. exact Hin.
    + now apply IH.
Qed.

(** The body of the loop over [search_models]. *)
Lemma search_unfold (db : Pro.database) (selected_model search_query : string) :
  Pro.search db selected_model search_query
  = fold_left
      (fun acc model =>
         results <- acc ;;
         ops <- getitem db model ;;
         Ok (Pro.search_model (lower search_query) model ops results))
      (Pro.search_models db selected_model) (Ok []).
Proof. reflexivity. Qed.

Section SearchLoop.

Variable db : Pro.database.
Variable search_lower : string.

Let step (acc : result (list quote_item)) (model : string) :=
  results <- acc ;;
  ops <- getitem db model ;;
  Ok (Pro.search_model search_lower model ops results).

Lemma search_loop_raise (models : list string) (e : exn) :
  fold_left step models (Raise e) = Raise e.
Proof. induction models as [|m models IH]; [reflexivity | exact IH]. Qed.

(** Every model a key: the loop returns the per-model matches in order. *)
Lemma search_loop_ok (models : list string) (acc : list quote_item) :
  Forall (fun m => get db m <> None) models ->
  fold_left step models (Ok acc)
  = Ok (acc ++ flat_map (matches_of db search_lower) models).
Proof.
  revert acc. induction models as [|m models IH]; intros acc Hall; simpl.
  - now rewrite app_nil_r.
  - inversion Hall as [|? ? Hm Hrest]; subst.
    unfold getitem, matches_of at 1. destruct (get db m) as [ops|]; [|congruence].
    simpl. rewrite search_model_eq, IH by assumption.
    now rewrite <- app_assoc.
Qed.

(** A returned result means every model was a key. *)
Lemma search_loop_inv (models : list string) (acc res : list quote_item) :
  fold_left step models (Ok acc) = Ok res ->
  Forall (fun m => get db m <> None) models.
Proof.
  revert acc. induction models as [|m models IH]; intros acc H; [constructor|].
  simpl in H. unfold getitem in H.
  destruct (get db m) as [ops|] eqn:Hm; simpl in H.
  - constructor; [congruence | eapply IH; eassumption].
  - fold step in H. rewrite search_loop_raise in H. discriminate.
Qed.

(** The first model that is no key stops the loop with [KeyError]. *)
Lemma search_loop_missing (models : list string) (acc : list quote_item) :
  ~ Forall (fun m => get db m <> None) models ->
  exists k, In k models /\ fold_left step models (Ok acc) = Raise (KeyError k).
Proof.
  revert acc. induction models as [|m models IH]; intros acc Hnot.
  - exfalso. apply Hnot. constructor.
  - simpl. unfold getitem. destruct (get db m) as [ops|] eqn:Hm; simpl.
    + destruct (IH (Pro.search_model search_lower m ops acc)) as (k & Hk & Hr).
      * intros Hall. apply Hnot. constructor; [congruence | exact Hall].
      * exists k. split; [now right | exact Hr].
    + exists m. split; [now left|]. apply search_loop_raise.
Qed.

End SearchLoop.

Lemma search_ok_eq (db : Pro.database) (selected_model search_query : string)
    (results : list quote_item) :
  Pro.search db selected_model search_query = Ok results ->
  Forall (fun m => get db m <> None) (Pro.search_models db selected_model) /\
  results = flat_map (matches_of db (lower search_query))
                     (Pro.search_models db selected_model).
Proof.
  rewrite search_unfold. intros H.
  pose proof (search_loop_inv _ _ _ _ H) as Hall.
  split; [exact Hall|].
  rewrite (search_loop_ok _ _ _ Hall) in H. now injection H as <-.
Qed.

Lemma In_model_matches (query model : string) (ops : list operation)
    (r : quote_item) :
  In r (model_matches (lower query) model ops) <->
  exists op, In op ops /\ r = Pro.result_of model op /\
    (contains_ci query (op_code op) \/ contains_ci query (op_description op)).
Proof.
  unfold model_matches. rewrite in_map_iff. split.
  - intros (op & <- & Hop). apply filter_In in Hop. destruct Hop as [Hin Hm].
    exists op. repeat split; [exact Hin | now apply op_matches_spec].
  - intros (op & Hin & -> & Hm). exists op. split; [reflexivity|].
    apply filter_In. split; [exact Hin | now apply op_matches_spec].
Qed.

(** C3, as the code has it. The sidebar search of the first script returns
    exactly the operations, of the models in scope, whose code or description
    contains the query, letter case aside; the filter of the second script
    keeps exactly those operations of the selected model; [search_srt_codes]
    returns the rows whose description contains the query (a query without
    regular-expression characters), whatever their code. Searching OIL finds
    the description Engine oil and filter change in all three. *)
Theorem search_matching_predicate :
  (forall (db : Pro.database) (selected_model query : string) results,
      Pro.search db selected_model query = Ok results ->
      forall r, In r results <->
        exists model ops op,
          In model (Pro.search_models db selected_model) /\
          get db model = Some ops /\ In op ops /\
          r = Pro.result_of model op /\
          (contains_ci query (op_code op) \/
           contains_ci query (op_description op))) /\
  (forall (ops : list operation) (search_term : string) (op : operation),
      search_term <> "" ->
      (In op (Fixed.filtered_ops ops search_term) <->
       In op ops /\
       (contains_ci search_term (op_code op) \/
        contains_ci search_term (op_description op)))) /\
  (forall (df : Loader.DataFrame) (query : string),
      Loader.regex_literal (lower query) = true ->
      exists rows, Loader.search_srt_codes df query = Some rows /\
        forall r, In r rows <->
          In r df /\ contains_ci query (Loader.description r)) /\
  (forall code hours,
      Pro.op_matches (lower "OIL")
        (mk_operation code "Engine oil and filter change" hours) = true /\
      Fixed.filtered_ops
        [mk_operation code "Engine oil and filter change" hours] "OIL"
      = [mk_operation code "Engine oil and filter change" hours]) /\
  (forall r, Loader.description r = "Engine oil and filter change" ->
      Loader.search_srt_codes [r] "OIL" = Some [r]).
Proof.
  split; [|split; [|split; [|split]]].
  - intros db selected_model query results H r.
    apply search_ok_eq in H. destruct H as [_ ->].
    rewrite in_flat_map. split.
    + intros (model & Hmodel & Hr). unfold matches_of in Hr.
      destruct (get db model) as [ops|] eqn:Hget; [|contradiction].
      apply In_model_matches in Hr. destruct Hr as (op & Hop & -> & Hm).
      exists model, ops, op. auto.
    + intros (model & ops & op & Hmodel & Hget & Hop & -> & Hm).
      exists model. split; [exact Hmodel|].
      unfold matches_of. rewrite Hget. apply In_model_matches. eauto.
  - intros ops search_term op Hne.
    destruct search_term as [|c t]; [congruence|].
    unfold Fixed.filtered_ops. rewrite filter_In.
    unfold contains_ci. rewrite orb_true_iff, !str_in_spec. tauto.
  - intros df query Hlit. unfold Loader.search_srt_codes. rewrite Hlit.
    eexists. split; [reflexivity|].
    intros r. rewrite filter_In, str_in_spec. reflexivity.
  - intros code hours. unfold Pro.op_matches, Fixed.filtered_ops; simpl.
    split; [apply orb_true_r | reflexivity].
  - intros r Hd. unfold Loader.search_srt_codes; simpl. now rewrite Hd.
Qed.

(** A query without regular-expression characters, run through the third
    part of the statement above. *)
Lemma search_matching_predicate_witness :
  Loader.regex_literal (lower "OIL") = true /\
  exists rows,
    Loader.search_srt_codes
      [Loader.mk_row "excavator_580N" "Excavator" "580N" "10.001"
                     "Engine oil and filter change" 1.5] "OIL" = Some rows /\
    forall r, In r rows <->
      In r [Loader.mk_row "excavator_580N" "Excavator" "580N" "10.001"
                          "Engine oil and filter change" 1.5] /\
      contains_ci "OIL" (Loader.description r).
Proof.
  split; [reflexivity|].
  apply (proj1 (proj2 (proj2 search_matching_predicate))). reflexivity.
Defined.

(** C3 as stated fails on [search_srt_codes]: a row whose code contains the
    query, but whose description does not, is not returned. *)
Lemma search_srt_codes_ignores_code :
  let r := Loader.mk_row "excavator_580N" "Excavator" "580N" "OIL-100"
                         "Replace filter element" 1.5 in
  (contains_ci "oil" (Loader.code r) \/
   contains_ci "oil" (Loader.description r)) /\
  Loader.search_srt_codes [r] "oil" = Some [].
Proof.
  split; [|reflexivity].
  left. apply str_in_spec. reflexivity.
Qed.

(** ** Search scope *)

Lemma model_matches_model (search_lower model : string) (ops : list operation) :
  Forall (fun r => item_model r = model) (model_matches search_lower model ops).
Proof.
  unfold model_matches. apply Forall_forall. intros r Hr.
  apply in_map_iff in Hr. destruct Hr as (op & <- & _). reflexivity.
Qed.

Lemma get_keys (V : Type) (d : dict V) (k : string) :
  In k (keys d) -> get d k <> None.
Proof.
  unfold keys. induction d as [|[k' v'] d IH]; simpl; [contradiction|].
  destruct (String.eqb_spec k' k) as [->|Hne]; [discriminate|].
  intros [H|H]; [contradiction | now apply IH].
Qed.

(** C4. A search scoped to one model returns results of that model only,
    the matching operations of the model in their order; a search over all
    models returns, one after the other in the order of the database, what
    the search scoped to each model returns; and
    [get_model_codes] keeps the rows of the model, in the order of the
    table. *)
Theorem search_scope (db : Pro.database) (query : string)
    (Hall : ~ In "All Models" (keys db)) :
  (forall selected_model results,
      selected_model <> "All Models" ->
      Pro.search db selected_model query = Ok results ->
      Forall (fun r => item_model r = selected_model) results) /\
  (forall selected_model ops,
      selected_model <> "All Models" ->
      get db selected_model = Some ops ->
      Pro.search db selected_model query
      = Ok (map (Pro.result_of selected_model)
                (filter (Pro.op_matches (lower query)) ops))) /\
  (exists per_model : list (list quote_item),
      Forall2 (fun model results => Pro.search db model query = Ok results)
              (keys db) per_model /\
      Pro.search db "All Models" query = Ok (List.concat per_model)) /\
  (forall (df : Loader.DataFrame) (model_key : string),
      Loader.get_model_codes df model_key
      = filter (fun r => String.eqb (Loader.model_key r) model_key) df /\
      Forall (fun r => Loader.model_key r = model_key)
             (Loader.get_model_codes df model_key)).
Proof.
  split; [|split; [|split]].
  - intros selected_model results Hne H.
    apply search_ok_eq in H. destruct H as [_ ->].
    unfold Pro.search_models.
    destruct (String.eqb_spec selected_model "All Models") as [|_]; [contradiction|].
    simpl. rewrite app_nil_r. unfold matches_of.
    destruct (get db selected_model); [apply model_matches_model | constructor].
  - intros selected_model ops Hne Hget.
    rewrite search_unfold. unfold Pro.search_models.
    destruct (String.eqb_spec selected_model "All Models") as [|_]; [contradiction|].
    rewrite search_loop_ok by (constructor; [congruence | constructor]).
    simpl. unfold matches_of. rewrite Hget. now rewrite app_nil_r.
  - exists (map (matches_of db (lower query)) (keys db)). split.
    + assert (Hsub : forall ks, incl ks (keys db) ->
                Forall2 (fun model results => Pro.search db model query = Ok results)
                        ks (map (matches_of db (lower query)) ks)).
      { induction ks as [|k ks IH]; intros Hincl; [constructor|].
        simpl. constructor.
        - assert (Hk : In k (keys db)) by (apply Hincl; now left).
          rewrite search_unfold. unfold Pro.search_models.
          destruct (String.eqb_spec k "All Models") as [->|_]; [contradiction|].
          rewrite search_loop_ok.
          + simpl. now rewrite app_nil_r.
          + constructor; [now apply get_keys | constructor].
        - apply IH. intros x Hx. apply Hincl. now right. }
      apply Hsub. apply incl_refl.
    + rewrite search_unfold. unfold Pro.search_models. simpl.
      rewrite search_loop_ok.
      * simpl. now rewrite flat_map_concat_map.
      * apply Forall_forall. intros k Hk. now apply get_keys.
  - intros df model_key. split; [reflexivity|].
    unfold Loader.get_model_codes, Loader.rows_of.
    apply Forall_forall. intros r Hr. apply filter_In in Hr.
    destruct Hr as [_ Hr]. now apply String.eqb_eq.
Qed.

(** ** The loader: the JSON branch *)

Lemma get_set_same (V : Type) (d : dict V) (k : string) (v : V) :
  get (set d k v) k = Some v.
Proof.
  induction d as [|[k' v'] d IH]; simpl.
  - now rewrite String.eqb_refl.
  - destruct (String.eqb_spec k' k) as [->|Hne]; simpl.
    + now rewrite String.eqb_refl.
    + destruct (String.eqb_spec k' k); [contradiction | exact IH].
Qed.

Lemma get_set_other (V : Type) (d : dict V) (k k' : string) (v : V) :
  k <> k' -> get (set d k v) k' = get d k'.
Proof.
  intros Hne. induction d as [|[k0 v0] d IH]; simpl.
  - destruct (String.eqb_spec k k'); [contradiction | reflexivity].
  - destruct (String.eqb_spec k0 k) as [->|Hne0]; simpl.
    + destruct (String.eqb_spec k k'); [contradiction | reflexivity].
    + destruct (String.eqb_spec k0 k'); [reflexivity | exact IH].
Qed.

Lemma get_not_key (V : Type) (d : dict V) (k : string) :
  ~ In k (keys d) -> get d k = None.
Proof.
  unfold keys. induction d as [|[k' v'] d IH]; simpl; [reflexivity|].
  intros H. destruct (String.eqb_spec k' k) as [->|Hne].
  - exfalso. apply H. now left.
  - apply IH. intros Hin. apply H. now right.
Qed.

Lemma append_codes_ok (model_key equipment_type model_name : string)
    (codes : list Loader.raw_code) (all_codes : list Loader.row) :
  Forall (fun c => hours_of c <> None) codes ->
  Loader.append_codes model_key equipment_type model_name codes all_codes
  = Ok (all_codes
        ++ map (fun c =>
                  Loader.mk_row model_key equipment_type model_name
                    (Loader.raw_code_code c) (Loader.raw_description c)
                    (match hours_of c with Some f => f | None => 0%float end))
               codes).
Proof.
  unfold Loader.append_codes. revert all_codes.
  induction codes as [|c codes IH]; intros all_codes Hall; simpl.
  - now rewrite app_nil_r.
  - inversion Hall as [|? ? Hc Hrest]; subst.
    unfold hours_of in Hc |- *. unfold Loader.py_float.
    destruct (Loader.raw_hours_value c) as [f| |]; try congruence.
    simpl. rewrite IH by assumption. now rewrite <- app_assoc.
Qed.

Lemma load_model_ok (all_codes : list Loader.row)
    (model_lookup : dict Loader.model_info)
    (item : string * list Loader.raw_code) :
  Forall (fun c => hours_of c <> None) (snd item) ->
  Loader.load_model (all_codes, model_lookup) item
  = Ok (all_codes ++ rows_for item, set model_lookup (fst item) (info_for item)).
Proof.
  destruct item as [model_key codes]. simpl. intros Hall.
  unfold Loader.load_model, rows_for, info_for. simpl.
  destruct (Loader.parse_model_key model_key) as [equipment_type model_name].
  now rewrite append_codes_ok.
Qed.

Lemma load_json_loop (srt_data : dict (list Loader.raw_code))
    (all_codes : list Loader.row) (model_lookup : dict Loader.model_info) :
  Forall (fun item => Forall (fun c => hours_of c <> None) (snd item)) srt_data ->
  fold_left (fun acc item => st <- acc ;; Loader.load_model st item)
            srt_data (Ok (all_codes, model_lookup))
  = Ok (all_codes ++ flat_map rows_for srt_data,
        fold_left (fun lk item => set lk (fst item) (info_for item))
                  srt_data model_lookup).
Proof.
  revert all_codes model_lookup.
  induction srt_data as [|item srt_data IH]; intros all_codes model_lookup Hall.
  - simpl. now rewrite app_nil_r.
  - inversion Hall as [|? ? Hitem Hrest]; subst.
    cbn [fold_left bind]. rewrite load_model_ok by assumption.
    rewrite IH by assumption. simpl. now rewrite <- app_assoc.
Qed.

Lemma rows_for_length (item : string * list Loader.raw_code) :
  List.length (rows_for item) = List.length (snd item).
Proof.
  unfold rows_for. destruct (Loader.parse_model_key (fst item)).
  apply length_map.
Qed.

Lemma rows_for_key (item : string * list Loader.raw_code) :
  Forall (fun r => Loader.model_key r = fst item) (rows_for item).
Proof.
  unfold rows_for. destruct (Loader.parse_model_key (fst item)).
  apply Forall_forall. intros r Hr. apply in_map_iff in Hr.
  destruct Hr as (c & <- & _). reflexivity.
Qed.

Lemma flat_map_length_sum (A B : Type) (g : A -> list B) (xs : list A) :
  List.length (flat_map g xs) = list_sum (map (fun x => List.length (g x)) xs).
Proof.
  induction xs as [|x xs IH]; simpl; [reflexivity|].
  now rewrite length_app, IH.
Qed.

Lemma rows_of_all (rows : list Loader.row) (k : string) :
  Forall (fun r => Loader.model_key r = k) rows -> Loader.rows_of rows k = rows.
Proof.
  unfold Loader.rows_of. induction 1 as [|r rows Hr _ IH]; simpl; [reflexivity|].
  rewrite Hr, String.eqb_refl. now rewrite IH.
Qed.

Lemma rows_of_none (rows : list Loader.row) (k k' : string) :
  k <> k' ->
  Forall (fun r => Loader.model_key r = k) rows -> Loader.rows_of rows k' = [].
Proof.
  unfold Loader.rows_of. intros Hne. induction 1 as [|r rows Hr _ IH]; simpl; [reflexivity|].
  rewrite Hr. destruct (String.eqb_spec k k'); [contradiction | exact IH].
Qed.

Lemma rows_of_app (xs ys : list Loader.row) (k : string) :
  Loader.rows_of (xs ++ ys) k = Loader.rows_of xs k ++ Loader.rows_of ys k.
Proof. apply filter_app. Qed.

(** The rows tagged with [k] are the rows of the model stored under [k]. *)
Lemma rows_of_flat_map (srt_data : dict (list Loader.raw_code)) (k : string) :
  NoDup (keys srt_data) ->
  Loader.rows_of (flat_map rows_for srt_data) k
  = match get srt_data k with
    | Some codes => rows_for (k, codes)
    | None => []
    end.
Proof.
  unfold keys. induction srt_data as [|[k0 codes0] srt_data IH]; simpl; [reflexivity|].
  intros Hnd. inversion Hnd as [|? ? Hnotin Hnd']; subst.
  rewrite rows_of_app, IH by assumption.
  destruct (String.eqb_spec k0 k) as [->|Hne].
  - pose proof (rows_of_all (rows_for_key (k, codes0))) as Hk.
    simpl in Hk. rewrite Hk, (get_not_key _ _ Hnotin). apply app_nil_r.
  - pose proof (rows_of_none (k' := k) Hne (rows_for_key (k0, codes0))) as Hk.
    now rewrite Hk.
Qed.

(** The entry of [k] after the loop over the source. *)
Lemma get_lookup_loop (srt_data : dict (list Loader.raw_code))
    (model_lookup : dict Loader.model_info) (k : string) :
  NoDup (keys srt_data) ->
  get (fold_left (fun lk item => set lk (fst item) (info_for item))
                 srt_data model_lookup) k
  = match get srt_data k with
    | Some codes => Some (info_for (k, codes))
    | None => get model_lookup k
    end.
Proof.
  unfold keys. revert model_lookup.
  induction srt_data as [|[k0 codes0] srt_data IH]; intros model_lookup Hnd;
    simpl; [reflexivity|].
  inversion Hnd as [|? ? Hnotin Hnd']; subst.
  rewrite IH by assumption.
  destruct (String.eqb_spec k0 k) as [->|Hne].
  - rewrite (get_not_key _ _ Hnotin). apply get_set_same.
  - destruct (get srt_data k); [reflexivity | now apply get_set_other].
Qed.

Lemma info_for_num_codes (item : string * list Loader.raw_code) :
  Loader.num_codes (info_for item) = List.length (snd item).
Proof.
  unfold info_for. now destruct (Loader.parse_model_key (fst item)).
Qed.

(** C5. Loading a well-formed source mapping succeeds; the table has as
    many rows as the models have operations, added up; every model of the
    source has an entry in the lookup; and the [num_codes] of every entry is
    the number of rows tagged with its model key. *)
Theorem load_counts (srt_data : dict (list Loader.raw_code))
    (pkl : option Loader.DataFrame) (lk : option (dict Loader.model_info))
    (Hwf : well_formed srt_data) :
  exists df model_lookup,
    Loader.load_srt_database (Loader.mk_files (Some srt_data) pkl lk)
      = Ok (df, model_lookup) /\
    List.length df
      = list_sum (map (fun item => List.length (snd item)) srt_data) /\
    (forall k codes, In (k, codes) srt_data ->
       exists info, get model_lookup k = Some info /\
                    Loader.num_codes info = List.length codes) /\
    (forall k info, get model_lookup k = Some info ->
       Loader.num_codes info
       = List.length (filter (fun r => String.eqb (Loader.model_key r) k) df)).
Proof.
  destruct Hwf as [Hnd Hconv].
  eexists. eexists. split.
  - unfold Loader.load_srt_database, Loader.load_json. simpl.
    apply (load_json_loop [] [] Hconv).
  - simpl. split; [|split].
    + rewrite flat_map_length_sum. f_equal. apply map_ext.
      intros item. apply rows_for_length.
    + intros k codes Hin. rewrite get_lookup_loop by assumption.
      rewrite (In_get _ _ _ Hnd Hin). eexists. split; [reflexivity|].
      apply info_for_num_codes.
    + intros k info. rewrite get_lookup_loop by assumption.
      fold (Loader.rows_of (flat_map rows_for srt_data) k).
      rewrite rows_of_flat_map by assumption.
      destruct (get srt_data k) as [codes|]; [|discriminate].
      intros [= <-]. now rewrite info_for_num_codes, rows_for_length.
Qed.

(** A source with two models, loaded. *)
Lemma load_counts_witness :
  let srt_data :=
    [ ("excavator_580N",
       [ Loader.mk_raw_code "10.001" "Engine oil and filter change" (Loader.Numeric 1.5);
         Loader.mk_raw_code "35.100" "Hydraulic pump replace" (Loader.Numeric 4.0) ]);
      ("loader_821G",
       [ Loader.mk_raw_code "10.001" "Engine oil and filter change" (Loader.Numeric 2.0) ]) ] in
  well_formed srt_data /\
  exists df model_lookup,
    Loader.load_srt_database (Loader.mk_files (Some srt_data) None None)
      = Ok (df, model_lookup) /\
    List.length df
      = list_sum (map (fun item => List.length (snd item)) srt_data) /\
    (forall k codes, In (k, codes) srt_data ->
       exists info, get model_lookup k = Some info /\
                    Loader.num_codes info = List.length codes) /\
    (forall k info, get model_lookup k = Some info ->
       Loader.num_codes info
       = List.length (filter (fun r => String.eqb (Loader.model_key r) k) df)).
Proof.
  intros srt_data.
  assert (Hwf : well_formed srt_data).
  { split.
    - repeat constructor; simpl; intuition discriminate.
    - repeat constructor; discriminate. }
  split; [exact Hwf|].
  exact (load_counts None None Hwf).
Defined.

(** ** Model keys *)

Lemma split_nonempty (sep : ascii) (s : string) : split sep s <> [].
Proof.
  destruct s as [|c s]; simpl; [discriminate|].
  destruct (Ascii.eqb c sep); [discriminate|].
  destruct (split sep s); discriminate.
Qed.

Lemma split_no_sep (sep : ascii) (s : string) :
  mentions sep s = false -> split sep s = [s].
Proof.
  induction s as [|c s IH]; simpl; [reflexivity|].
  intros H. apply orb_false_iff in H. destruct H as [Hc Hs].
  rewrite Hc, IH by assumption. reflexivity.
Qed.

Lemma split_at_first (sep : ascii) (first rest : string) :
  mentions sep first = false ->
  split sep (first ++ String sep rest) = first :: split sep rest.
Proof.
  induction first as [|c first IH]; simpl.
  - intros _. now rewrite Ascii.eqb_refl.
  - intros H. apply orb_false_iff in H. destruct H as [Hc Hs].
    rewrite Hc, IH by assumption. reflexivity.
Qed.

Lemma join_cons (sep p q : string) (rest : list string) :
  join sep (p :: q :: rest) = (p ++ sep ++ join sep (q :: rest))%string.
Proof. reflexivity. Qed.

Lemma join_split (sep : ascii) (s : string) :
  join (String sep "") (split sep s) = s.
Proof.
  induction s as [|c s IH]; simpl; [reflexivity|].
  pose proof (split_nonempty sep s) as Hs.
  destruct (split sep s) as [|tok rest]; [contradiction|].
  destruct (Ascii.eqb_spec c sep) as [->|Hne].
  - rewrite join_cons, IH. reflexivity.
  - destruct rest as [|tok' rest].
    + simpl in IH |- *. now rewrite IH.
    + rewrite join_cons in IH |- *. rewrite <- IH. reflexivity.
Qed.

Lemma replace_char_absent (a b : ascii) (s : string) :
  mentions a s = false -> replace_char a b s = s.
Proof.
  induction s as [|c s IH]; simpl; [reflexivity|].
  intros H. apply orb_false_iff in H. destruct H as [Hc Hs].
  rewrite Hc, IH by assumption. reflexivity.
Qed.

Lemma parse_single_token (model_key : string) :
  mentions "_" model_key = false ->
  Loader.parse_model_key model_key = (title model_key, model_key).
Proof.
  intros H. unfold Loader.parse_model_key.
  rewrite split_no_sep by exact H. simpl.
  now rewrite replace_char_absent by exact H.
Qed.

Lemma parse_several_tokens (first rest : string) :
  mentions "_" first = false ->
  Loader.parse_model_key (first ++ String "_" rest) = (title first, rest).
Proof.
  intros H. unfold Loader.parse_model_key.
  rewrite split_at_first by exact H.
  pose proof (split_nonempty "_" rest) as Hne.
  pose proof (join_split "_" rest) as Hj.
  destruct (split "_" rest) as [|tok toks]; [contradiction|].
  cbn [hd tl List.length Nat.ltb Nat.leb].
  rewrite replace_char_absent by exact H. now rewrite Hj.
Qed.

(** ** Loops that may raise *)

Section ResultLoop.

Variables (S A : Type).
Variable step : S -> A -> result S.

Lemma loop_raise (xs : list A) (e : exn) :
  fold_left (fun acc x => st <- acc ;; step st x) xs (Raise e) = Raise e.
Proof. induction xs as [|x xs IH]; [reflexivity | exact IH]. Qed.

(** What every successful step preserves holds after a successful loop. *)
Lemma loop_invariant (I : S -> Prop) :
  (forall s a s', I s -> step s a = Ok s' -> I s') ->
  forall xs s s',
    I s ->
    fold_left (fun acc x => st <- acc ;; step st x) xs (Ok s) = Ok s' ->
    I s'.
Proof.
  intros Hstep. induction xs as [|x xs IH]; intros s s' Hs H; simpl in H.
  - now injection H as <-.
  - destruct (step s x) as [s1|e] eqn:Hx.
    + apply (IH s1 s'); [now apply (Hstep s x) | exact H].
    + rewrite loop_raise in H. discriminate.
Qed.

End ResultLoop.

Lemma append_codes_derived (k et mn : string) (codes : list Loader.raw_code)
    (all_codes rows : list Loader.row) :
  derived_from_key k et mn ->
  Forall (fun r => derived_from_key (Loader.model_key r)
                     (Loader.equipment_type r) (Loader.model_name r)) all_codes ->
  Loader.append_codes k et mn codes all_codes = Ok rows ->
  Forall (fun r => derived_from_key (Loader.model_key r)
                     (Loader.equipment_type r) (Loader.model_name r)) rows.
Proof.
  intros Hk Hall H. unfold Loader.append_codes in H.
  revert H. apply loop_invariant with
    (step := fun rows c =>
               h <- Loader.py_float (Loader.raw_hours_value c) ;;
               Ok (rows ++ [Loader.mk_row k et mn (Loader.raw_code_code c)
                                          (Loader.raw_description c) h]));
    [|exact Hall].
  intros s c s' Hs Hc.
  destruct (Loader.py_float (Loader.raw_hours_value c)) as [h|e]; [|discriminate].
  simpl in Hc. injection Hc as <-.
  apply Forall_app. split; [exact Hs|].
  constructor; [exact Hk | constructor].
Qed.

Lemma load_model_derived (st st' : list Loader.row * dict Loader.model_info)
    (item : string * list Loader.raw_code) :
  names_derived st -> Loader.load_model st item = Ok st' -> names_derived st'.
Proof.
  destruct st as [all_codes model_lookup], item as [k codes].
  intros [Hrows Hlk] H. unfold Loader.load_model in H.
  destruct (Loader.parse_model_key k) as [et mn] eqn:Hparse.
  assert (Hk : derived_from_key k et mn)
    by (unfold derived_from_key; rewrite Hparse; auto).
  destruct (Loader.append_codes k et mn codes all_codes) as [rows|e] eqn:Happ;
    [|discriminate].
  simpl in H. injection H as <-. split; simpl.
  - exact (append_codes_derived _ Hk Hrows Happ).
  - intros k' info. destruct (String.eqb_spec k k') as [<-|Hne].
    + rewrite get_set_same. intros [= <-]. simpl. auto.
    + rewrite get_set_other by assumption. apply Hlk.
Qed.

(** C6. The equipment type is the title-cased first token of the key split
    on the underscore, and the model name the other tokens joined by it, or
    the only token; put otherwise, a key without underscore gives its title
    and itself, and a key [first_rest] gives the title of [first] and [rest].
    Every row and lookup entry the loader builds holds the names derived
    from its own key, the display name being the two with a space between.
    The key excavator_580N gives Excavator, 580N and Excavator 580N. *)
Theorem model_key_derivation :
  (forall model_key,
      let parts := split "_" model_key in
      Loader.parse_model_key model_key
      = (title (hd "" parts),
         if (1 <? List.length parts)%nat then join "_" (tl parts) else hd "" parts)) /\
  (forall model_key,
      mentions "_" model_key = false ->
      Loader.parse_model_key model_key = (title model_key, model_key)) /\
  (forall first rest,
      mentions "_" first = false ->
      Loader.parse_model_key (first ++ "_" ++ rest) = (title first, rest)) /\
  (forall srt_data pkl lk df model_lookup,
      Loader.load_srt_database (Loader.mk_files (Some srt_data) pkl lk)
        = Ok (df, model_lookup) ->
      names_derived (df, model_lookup)) /\
  (forall codes pkl lk,
      Forall (fun c => hours_of c <> None) codes ->
      exists df,
        Loader.load_srt_database
          (Loader.mk_files (Some [("excavator_580N", codes)]) pkl lk)
        = Ok (df, [("excavator_580N",
                    Loader.mk_model_info "Excavator 580N" "Excavator" "580N"
                                         (List.length codes))]) /\
        Forall (fun r => Loader.equipment_type r = "Excavator" /\
                         Loader.model_name r = "580N") df).
Proof.
  split; [|split; [|split; [|split]]].
  - intros model_key parts. subst parts. unfold Loader.parse_model_key.
    f_equal. f_equal. apply replace_char_absent.
    pose proof (split_nonempty "_" model_key) as Hne.
    clear Hne. induction model_key as [|c s IH]; [reflexivity|].
    simpl. destruct (Ascii.eqb c "_") eqn:Hc; [reflexivity|].
    destruct (split "_" s) as [|tok rest]; simpl in IH |- *; now rewrite Hc.
  - exact parse_single_token.
  - intros first rest H. now apply parse_several_tokens.
  - intros srt_data pkl lk df model_lookup H.
    unfold Loader.load_srt_database, Loader.load_json in H. simpl in H.
    revert H. apply loop_invariant with (step := Loader.load_model).
    + intros s a s'. apply load_model_derived.
    + split; [constructor | discriminate].
  - intros codes pkl lk Hconv.
    unfold Loader.load_srt_database, Loader.load_json.
    cbn [Loader.srt_database_organized_json fold_left bind].
    eexists. split.
    { etransitivity; [apply load_model_ok; exact Hconv | reflexivity]. }
    simpl.
    apply Forall_forall. intros r Hr. unfold rows_for in Hr. simpl in Hr.
    apply in_map_iff in Hr. destruct Hr as (c & <- & _). split; reflexivity.
Qed.

(** The key of the example, cut at its first underscore. *)
Lemma model_key_derivation_witness :
  mentions "_" "excavator" = false /\
  Loader.parse_model_key ("excavator" ++ "_" ++ "580N")
  = (title "excavator", "580N").
Proof.
  split; [reflexivity|].
  apply (proj1 (proj2 (proj2 model_key_derivation))). reflexivity.
Defined.

(** ** The loader: which source is read, and the missing database *)

Section ResultLoopRaise.

Variables (S A : Type).
Variable step : S -> A -> result S.

(** A loop raises only what one of its steps raises. *)
Lemma loop_raise_inv (P : exn -> Prop) :
  (forall s a e, step s a = Raise e -> P e) ->
  forall xs s e,
    fold_left (fun acc x => st <- acc ;; step st x) xs (Ok s) = Raise e ->
    P e.
Proof.
  intros Hstep. induction xs as [|x xs IH]; intros s e H; simpl in H.
  - discriminate.
  - destruct (step s x) as [s1|e1] eqn:Hx.
    + exact (IH s1 e H).
    + rewrite loop_raise in H. injection H as <-. exact (Hstep s x e1 Hx).
Qed.

End ResultLoopRaise.

Lemma load_json_raises (srt_data : dict (list Loader.raw_code)) (e : exn) :
  Loader.load_json srt_data = Raise e -> e = ValueError \/ e = TypeError.
Proof.
  unfold Loader.load_json.
  apply loop_raise_inv with (step := Loader.load_model)
                            (P := fun e => e = ValueError \/ e = TypeError).
  intros [all_codes model_lookup] [k codes] e1 H.
  unfold Loader.load_model in H.
  destruct (Loader.parse_model_key k) as [et mn].
  destruct (Loader.append_codes k et mn codes all_codes) as [rows|e2] eqn:Happ;
    [discriminate|].
  simpl in H. injection H as <-.
  revert Happ. unfold Loader.append_codes.
  apply loop_raise_inv with
    (P := fun e => e = ValueError \/ e = TypeError)
    (step := fun rows c =>
               h <- Loader.py_float (Loader.raw_hours_value c) ;;
               Ok (rows ++ [Loader.mk_row k et mn (Loader.raw_code_code c)
                                          (Loader.raw_description c) h])).
  intros rows c e3 Hc.
  destruct (Loader.raw_hours_value c); simpl in Hc;
    [discriminate | injection Hc as <-; now left | injection Hc as <-; now right].
Qed.

Lemma generate_lookup_raises (df : Loader.DataFrame) (e : exn) :
  Loader.generate_lookup df = Raise e -> e = IndexError.
Proof.
  unfold Loader.generate_lookup.
  apply loop_raise_inv with
    (P := fun e => e = IndexError)
    (step := fun model_lookup k =>
       match Loader.rows_of df k with
       | model_data :: _ =>
           Ok (set model_lookup k
                   (Loader.mk_model_info
                      (Loader.format_display_name
                         (Loader.equipment_type model_data)
                         (Loader.model_name model_data))
                      (Loader.equipment_type model_data)
                      (Loader.model_name model_data)
                      (List.length (Loader.rows_of df k))))
       | [] => Raise IndexError
       end).
  intros s k e1 H. destruct (Loader.rows_of df k); [|discriminate].
  now injection H as <-.
Qed.

(** C7. With neither the JSON file nor the pickle file, loading raises
    [FileNotFoundError] with a message that names the JSON file to add; with
    either of them, whatever loading does, it does not raise that error. *)
Theorem database_not_found :
  (forall lk,
      Loader.load_srt_database (Loader.mk_files None None lk)
      = Raise (FileNotFoundError Loader.not_found_message)) /\
  occurs_in "srt_database_organized.json" Loader.not_found_message /\
  (forall fs msg,
      Loader.srt_database_organized_json fs <> None \/
      Loader.srt_database_pkl fs <> None ->
      Loader.load_srt_database fs <> Raise (FileNotFoundError msg)).
Proof.
  split; [reflexivity|]. split.
  - apply str_in_spec. reflexivity.
  - intros [json pkl lk] msg Hsome. unfold Loader.load_srt_database. simpl in *.
    destruct json as [srt_data|].
    + intros H. apply load_json_raises in H. destruct H; discriminate.
    + destruct pkl as [df|]; [|destruct Hsome; congruence].
      destruct lk as [model_lookup|]; [discriminate|].
      destruct (Loader.generate_lookup df) as [model_lookup|e] eqn:Hg;
        [discriminate|].
      simpl. apply generate_lookup_raises in Hg. subst e. discriminate.
Qed.

(** Only the pickle file present: the load does not report a missing
    database. *)
Lemma database_not_found_witness :
  (Loader.srt_database_organized_json (Loader.mk_files None (Some []) None) <> None \/
   Loader.srt_database_pkl (Loader.mk_files None (Some []) None) <> None) /\
  Loader.load_srt_database (Loader.mk_files None (Some []) None)
  <> Raise (FileNotFoundError Loader.not_found_message).
Proof.
  assert (H : Loader.srt_database_organized_json (Loader.mk_files None (Some []) None) <> None \/
              Loader.srt_database_pkl (Loader.mk_files None (Some []) None) <> None)
    by (right; discriminate).
  split; [exact H|].
  exact (proj2 (proj2 database_not_found) _ _ H).
Defined.

(** ** The quote: remove, clear, add *)

Lemma remove_at_split (A : Type) (before : list A) (x : A) (after : list A) :
  remove_at (List.length before) (before ++ x :: after) = before ++ after.
Proof.
  unfold remove_at. induction before as [|b before IH]; simpl; [reflexivity|].
  simpl in IH. now rewrite IH.
Qed.

Lemma position_valid (n : nat) (i : Z) :
  (- Z.of_nat n <= i < Z.of_nat n)%Z ->
  exists k, position n i = Some k /\ (k < n)%nat /\
            Z.of_nat k = (if (i <? 0)%Z then Z.of_nat n + i else i)%Z.
Proof.
  intros Hi. unfold position.
  destruct (Z.ltb_spec i 0) as [Hneg|Hpos].
  - replace (0 <=? i)%Z with false by (symmetry; apply Z.leb_gt; lia).
    replace (- Z.of_nat n <=? i)%Z with true by (symmetry; apply Z.leb_le; lia).
    replace (i <? 0)%Z with true by (symmetry; apply Z.ltb_lt; lia).
    simpl. eexists. split; [reflexivity|]. lia.
  - replace (0 <=? i)%Z with true by (symmetry; apply Z.leb_le; lia).
    replace (i <? Z.of_nat n)%Z with true by (symmetry; apply Z.ltb_lt; lia).
    simpl. eexists. split; [reflexivity|]. lia.
Qed.

Lemma position_invalid (n : nat) (i : Z) :
  (i < - Z.of_nat n \/ Z.of_nat n <= i)%Z -> position n i = None.
Proof.
  intros Hi. unfold position.
  destruct (Z.leb_spec 0 i), (Z.ltb_spec i (Z.of_nat n)),
           (Z.leb_spec (- Z.of_nat n) i), (Z.ltb_spec i 0);
    simpl; try reflexivity; lia.
Qed.

(** C8. Removing at an index outside [-n, n-1], [n] the number of items,
    raises [IndexError] and leaves the session as it was. Removing at an
    index inside takes out the one item at that position (counted from the
    end for a negative index) and keeps the others in their order. *)
Theorem remove_item_spec (st : session_state) (i : Z) :
  let n := Z.of_nat (List.length (quote_items st)) in
  ((i < - n \/ n <= i)%Z -> remove_item st i = (st, Some IndexError)) /\
  ((- n <= i < n)%Z ->
     exists before x after,
       quote_items st = before ++ x :: after /\
       Z.of_nat (List.length before) = (if (i <? 0)%Z then n + i else i)%Z /\
       remove_item st i = (mk_session (before ++ after) (factors st), None)).
Proof.
  intros n. subst n. unfold remove_item, pop. split.
  - intros Hi. now rewrite (position_invalid _ Hi).
  - intros Hi. destruct (position_valid _ Hi) as (k & Hk & Hlt & Hpos).
    rewrite Hk.
    destruct (nth_error (quote_items st) k) as [x|] eqn:Hx.
    + apply nth_error_split in Hx. destruct Hx as (before & after & Heq & Hlen).
      exists before, x, after. split; [exact Heq|].
      split; [now rewrite Hlen|].
      rewrite Heq at 1. rewrite <- Hlen, remove_at_split. reflexivity.
    + apply nth_error_None in Hx. lia.
Qed.

(** Three items: the index 3 is refused, the index 1 removes the middle
    item. *)
Lemma remove_item_spec_witness :
  let a := mk_quote_item "Excavator 580N" "10.001" "Engine oil" 1.5 in
  let b := mk_quote_item "Excavator 580N" "35.100" "Hydraulic pump" 4.0 in
  let c := mk_quote_item "Loader 821G" "21.200" "Transmission" 6.0 in
  let st := mk_session [a; b; c] initial_factors in
  remove_item st 3 = (st, Some IndexError) /\
  exists before x after,
    quote_items st = before ++ x :: after /\
    Z.of_nat (List.length before) = 1%Z /\
    remove_item st 1 = (mk_session (before ++ after) (factors st), None).
Proof.
  intros a b c st. split.
  - apply (proj1 (remove_item_spec st 3)). simpl. lia.
  - apply (proj2 (remove_item_spec st 1)). simpl. lia.
Defined.

(** C9. Clearing the quote empties the items and leaves the six factors as
    they were. *)
Theorem clear_quote_spec (st : session_state) :
  quote_items (clear_quote st) = [] /\
  factors (clear_quote st) = factors st /\
  values (factors (clear_quote st)) = values (factors st).
Proof. repeat split. Qed.

Lemma any_code_spec (c : string) (items : list quote_item) :
  any (fun item => String.eqb (item_code item) c) items = true <->
  exists item, In item items /\ item_code item = c.
Proof.
  unfold any. rewrite existsb_exists.
  split; intros (item & Hin & H); exists item; split; try exact Hin;
    now apply String.eqb_eq.
Qed.

(** C10. The Add button of the second script: an operation whose code some
    item of the quote already has leaves the session as it is, with the
    warning; otherwise the operation is appended as the last item. So the
    item is appended exactly when no item has its code. *)
Theorem add_operation_spec (st : session_state) (op : operation)
    (selected_display : string) :
  let quote_item :=
    mk_quote_item selected_display (op_code op) (op_description op) (op_hours op) in
  ((exists item, In item (quote_items st) /\ item_code item = op_code op) ->
     Fixed.add_operation st op selected_display = (st, Fixed.AlreadyInQuote)) /\
  ((forall item, In item (quote_items st) -> item_code item <> op_code op) ->
     Fixed.add_operation st op selected_display
     = (mk_session (quote_items st ++ [quote_item]) (factors st), Fixed.Added)) /\
  (quote_items (fst (Fixed.add_operation st op selected_display))
   = quote_items st ++ [quote_item] <->
   forall item, In item (quote_items st) -> item_code item <> op_code op).
Proof.
  intros quote_item. subst quote_item. unfold Fixed.add_operation.
  destruct (any (fun item => String.eqb (item_code item) (op_code op))
                (quote_items st)) eqn:Hany; simpl.
  - apply any_code_spec in Hany. destruct Hany as (item & Hin & Hcode).
    split; [reflexivity|]. split.
    + intros Hnone. exfalso. exact (Hnone item Hin Hcode).
    + split.
      * intros Heq. apply (f_equal (@List.length _)) in Heq.
        rewrite length_app in Heq. simpl in Heq. lia.
      * intros Hnone. exfalso. exact (Hnone item Hin Hcode).
  - assert (Hnone : forall item, In item (quote_items st) ->
                                 item_code item <> op_code op).
    { intros item Hin Hcode.
      assert (Ht : any (fun item => String.eqb (item_code item) (op_code op))
                       (quote_items st) = true)
        by (apply any_code_spec; eauto).
      congruence. }
    split.
    + intros (item & Hin & Hcode). exfalso. exact (Hnone item Hin Hcode).
    + split; [reflexivity|]. split; [intros _; exact Hnone | reflexivity].
Qed.

(** The operation 10.001 is in the quote already: adding it again changes
    nothing. *)
Lemma add_operation_spec_witness :
  let a := mk_quote_item "Excavator 580N" "10.001" "Engine oil" 1.5 in
  let st := mk_session [a] initial_factors in
  let op := mk_operation "10.001" "Engine oil" 1.5 in
  (exists item, In item (quote_items st) /\ item_code item = op_code op) /\
  Fixed.add_operation st op "Excavator 580N" = (st, Fixed.AlreadyInQuote).
Proof.
  intros a st op.
  assert (H : exists item, In item (quote_items st) /\ item_code item = op_code op)
    by (exists a; split; [now left | reflexivity]).
  split; [exact H|].
  exact (proj1 (add_operation_spec st op "Excavator 580N") H).
Defined.

(** The quote of two items, 2.0 and 3.5 hours: its second line. *)
Lemma pricing_totals_and_lines_witness :
  let a := mk_quote_item "Excavator 580N" "10.001" "Engine oil" 2.0 in
  let b := mk_quote_item "Excavator 580N" "35.100" "Hydraulic pump" 3.5 in
  let f := mk_factors 1.25 1.10 1.0 1.05 1.0 1.0 in
  let t := tab3_totals [a; b] f 125.0 in
  nth_error [a; b] 1 = Some b /\
  exists r, nth_error (quote_data t) 1 = Some r /\
    row_code r = item_code b /\
    row_base_hours r = item_hours b /\
    adjusted_item_hours r = (item_hours b * total_multiplier t)%float /\
    item_cost r = (adjusted_item_hours r * 125.0)%float.
Proof.
  intros a b f t.
  assert (H : nth_error [a; b] 1 = Some b) by reflexivity.
  split; [exact H|].
  pose proof (pricing_totals_and_lines [a; b] f 125.0) as P.
  destruct P as (_ & _ & _ & _ & _ & P).
  exact (P 1%nat b H).
Defined.

(** A database of two models, none of them named All Models. *)
Lemma search_scope_witness :
  let db : Pro.database :=
    [ ("excavator_580N",
       [ mk_operation "10.001" "Engine oil and filter change" 1.5;
         mk_operation "35.100" "Hydraulic pump replace" 4.0 ]);
      ("loader_821G",
       [ mk_operation "10.002" "Engine OIL cooler replace" 2.0 ]) ] in
  ~ In "All Models" (keys db) /\
  (forall results,
      "loader_821G" <> "All Models" ->
      Pro.search db "loader_821G" "oil" = Ok results ->
      Forall (fun r => item_model r = "loader_821G") results) /\
  exists per_model : list (list quote_item),
    Forall2 (fun model results => Pro.search db model "oil" = Ok results)
            (keys db) per_model /\
    Pro.search db "All Models" "oil" = Ok (List.concat per_model).
Proof.
  intros db.
  assert (H : ~ In "All Models" (keys db))
    by (simpl; intros [H|[H|[]]]; discriminate).
  split; [exact H|].
  pose proof (@search_scope db "oil" H) as (P1 & _ & P2 & _).
  split; [exact (P1 "loader_821G") | exact P2].
Defined.

(* ================================================================== *)
(** * Further properties of the loader *)
(* ================================================================== *)

Section ResultLoopSteps.

Variables (S A : Type).
Variable step : S -> A -> result S.


End ResultLoopSteps.




(** ** The pickle branch and the regrouped database *)

Lemma unique_from_In (seen xs : list string) (k : string) :
  In k (Loader.unique_from seen xs) <-> In k xs /\ ~ In k seen.
Proof.
  revert seen. induction xs as [|x xs IH]; intros seen; simpl; [tauto|].
  destruct (existsb (String.eqb x) seen) eqn:Hseen.
  - rewrite IH. apply existsb_exists in Hseen. destruct Hseen as (y & Hy & Hxy).
    apply String.eqb_eq in Hxy. subst y.
    split; [tauto|]. intros [[->|Hk] Hns]; [contradiction | tauto].
  - simpl. rewrite IH. simpl.
    assert (Hx : ~ In x seen).
    { intros Hin. assert (existsb (String.eqb x) seen = true)
        by (apply existsb_exists; exists x; split; [exact Hin | apply String.eqb_refl]).
      congruence. }
    destruct (string_dec x k) as [->|Hne]; [tauto|]. tauto.
Qed.

Lemma unique_In (xs : list string) (k : string) :
  In k (Loader.unique xs) <-> In k xs.
Proof. unfold Loader.unique. rewrite unique_from_In. simpl. tauto. Qed.

Lemma rows_of_nil_iff (df : Loader.DataFrame) (k : string) :
  Loader.rows_of df k = [] <-> ~ In k (map Loader.model_key df).
Proof.
  unfold Loader.rows_of. induction df as [|r df IH]; simpl; [tauto|].
  destruct (String.eqb_spec (Loader.model_key r) k) as [Heq|Hne].
  - split; [discriminate | intros H; exfalso; apply H; now left].
  - rewrite IH. tauto.
Qed.

Lemma existsb_eqb_In (k : string) (ks : list string) :
  existsb (String.eqb k) ks = true <-> In k ks.
Proof.
  rewrite existsb_exists. split.
  - intros (x & Hx & Heq). apply String.eqb_eq in Heq. now subst.
  - intros H. exists k. split; [exact H | apply String.eqb_refl].
Qed.

Lemma get_fold_set (V : Type) (g : string -> V) (ks : list string)
    (acc : dict V) (k : string) :
  get (fold_left (fun d x => set d x (g x)) ks acc) k
  = if existsb (String.eqb k) ks then Some (g k) else get acc k.
Proof.
  revert acc. induction ks as [|x ks IH]; intros acc; simpl; [reflexivity|].
  rewrite IH. destruct (String.eqb_spec k x) as [->|Hne]; simpl.
  - destruct (existsb (String.eqb x) ks); [reflexivity | apply get_set_same].
  - destruct (existsb (String.eqb k) ks); [reflexivity|].
    apply get_set_other. congruence.
Qed.




Lemma to_database_get (df : Loader.DataFrame) (k : string) :
  get (Fixed.to_database df) k = ops_of_rows (Loader.rows_of df k).
Proof.
  unfold Fixed.to_database.
  rewrite (get_fold_set
             (fun k => map Fixed.operation_of_row (Loader.rows_of df k))).
  destruct (existsb (String.eqb k) (Loader.unique (map Loader.model_key df)))
    eqn:Hk.
  - apply (proj1 (existsb_eqb_In _ _)) in Hk. apply (proj1 (unique_In _ _)) in Hk.
    destruct (Loader.rows_of df k) as [|r rows] eqn:Hr; [|reflexivity].
    apply (proj1 (rows_of_nil_iff _ _)) in Hr. contradiction.
  - assert (Hnot : ~ In k (map Loader.model_key df)).
    { intros Hin. apply (proj2 (unique_In _ _)) in Hin.
      apply (proj2 (existsb_eqb_In _ _)) in Hin. congruence. }
    apply (proj2 (rows_of_nil_iff _ _)) in Hnot. now rewrite Hnot.
Qed.

(** X4. The database the second script regroups from the table has, under
    each model key that occurs in the table, the operations of the rows of
    that model in table order; a key without rows is not in it, and the
    operations of all keys together are as many as the rows. *)
Theorem to_database_lookup (df : Loader.DataFrame) :
  (forall k, get (Fixed.to_database df) k
             = ops_of_rows (Loader.get_model_codes df k)) /\
  (forall k, In k (keys (Fixed.to_database df)) -> In k (map Loader.model_key df)) /\
  (forall k ops, get (Fixed.to_database df) k = Some ops ->
     ops <> [] /\
     map op_code ops = map Loader.code (Loader.get_model_codes df k)).
Proof.
  split; [|split].
  - intros k. apply to_database_get.
  - intros k Hk. apply get_keys in Hk. rewrite to_database_get in Hk.
    destruct (Loader.rows_of df k) as [|r rows] eqn:Hr; [now elim Hk|].
    destruct (in_dec string_dec k (map Loader.model_key df)) as [Hin|Hnot];
      [exact Hin|].
    apply (proj2 (rows_of_nil_iff _ _)) in Hnot. congruence.
  - intros k ops Hget. rewrite to_database_get in Hget.
    unfold Loader.get_model_codes.
    destruct (Loader.rows_of df k) as [|r rows]; [discriminate|].
    injection Hget as <-. split; [discriminate|].
    simpl. f_equal. rewrite map_map. reflexivity.
Qed.






(** ** Models by equipment type, and the model selector *)

Lemma by_type_step (by_type : dict (list string)) (k eq_type t : string) :
  get (match get (match get by_type eq_type with
                  | None => set by_type eq_type []
                  | Some _ => by_type
                  end) eq_type with
       | Some group =>
           set (match get by_type eq_type with
                | None => set by_type eq_type []
                | Some _ => by_type
                end) eq_type (group ++ [k])
       | None => match get by_type eq_type with
                 | None => set by_type eq_type []
                 | Some _ => by_type
                 end
       end) t
  = if String.eqb eq_type t
    then Some (match get by_type t with Some g => g | None => [] end ++ [k])
    else get by_type t.
Proof.
  destruct (String.eqb_spec eq_type t) as [->|Hne].
  - destruct (get by_type t) as [g|] eqn:Hg.
    + rewrite Hg. apply get_set_same.
    + rewrite get_set_same. apply get_set_same.
  - destruct (get by_type eq_type) as [g|] eqn:Hg.
    + rewrite Hg. now apply get_set_other.
    + rewrite get_set_same. rewrite !get_set_other by assumption. reflexivity.
Qed.

Lemma by_type_loop (entries : dict Loader.model_info)
    (by_type : dict (list string)) (t : string) :
  get (fold_left
         (fun by_type entry =>
            let '(model_key, info) := entry in
            let eq_type := Loader.info_equipment_type info in
            let by_type :=
              match get by_type eq_type with
              | None => set by_type eq_type []
              | Some _ => by_type
              end in
            match get by_type eq_type with
            | Some group => set by_type eq_type (group ++ [model_key])
            | None => by_type
            end)
         entries by_type) t
  = match get by_type t, keys_of_type entries t with
    | Some g, ks => Some (g ++ ks)
    | None, [] => None
    | None, ks => Some ks
    end.
Proof.
  revert by_type. induction entries as [|[k info] entries IH]; intros by_type.
  - simpl. destruct (get by_type t); [now rewrite app_nil_r | reflexivity].
  - cbn [fold_left]. rewrite IH. rewrite by_type_step.
    unfold keys_of_type. cbn [filter snd map fst].
    destruct (String.eqb (Loader.info_equipment_type info) t).
    + cbn [map fst]. destruct (get by_type t) as [g|].
      * now rewrite <- app_assoc.
      * reflexivity.
    + reflexivity.
Qed.

Lemma by_type_get (model_lookup : dict Loader.model_info) (t : string) :
  get (Loader.get_models_by_type model_lookup) t
  = match keys_of_type model_lookup t with
    | [] => None
    | ks => Some ks
    end.
Proof.
  unfold Loader.get_models_by_type. rewrite by_type_loop. reflexivity.
Qed.

(** X6. [get_models_by_type] puts under each equipment type the keys of the
    models of that type, in the order of the lookup; a type without model
    is no key of the result, so no group is empty; and every model is in
    the group of its own type. *)
Theorem models_grouped_by_type (model_lookup : dict Loader.model_info) :
  (forall t, get (Loader.get_models_by_type model_lookup) t
             = match keys_of_type model_lookup t with
               | [] => None
               | ks => Some ks
               end) /\
  (forall t group, get (Loader.get_models_by_type model_lookup) t = Some group ->
     group <> [] /\
     forall k, In k group <->
       exists info, In (k, info) model_lookup /\
                    Loader.info_equipment_type info = t) /\
  (forall k info, In (k, info) model_lookup ->
     exists group,
       get (Loader.get_models_by_type model_lookup)
           (Loader.info_equipment_type info) = Some group /\
       In k group).
Proof.
  assert (Hin : forall t k, In k (keys_of_type model_lookup t) <->
            exists info, In (k, info) model_lookup /\
                         Loader.info_equipment_type info = t).
  { intros t k. unfold keys_of_type. rewrite in_map_iff. split.
    - intros ([k' info] & <- & Hf). apply filter_In in Hf. destruct Hf as [Hf Ht].
      exists info. split; [exact Hf | now apply String.eqb_eq].
    - intros (info & Hf & Ht). exists (k, info). split; [reflexivity|].
      apply filter_In. split; [exact Hf | now apply String.eqb_eq]. }
  split; [exact (by_type_get model_lookup)|]. split.
  - intros t group Hget. rewrite by_type_get in Hget.
    destruct (keys_of_type model_lookup t) as [|k0 ks] eqn:Hks; [discriminate|].
    injection Hget as <-. split; [discriminate|].
    intros k. rewrite <- Hks. apply Hin.
  - intros k info Hk. rewrite by_type_get.
    assert (Hkin : In k (keys_of_type model_lookup (Loader.info_equipment_type info)))
      by (apply Hin; eauto).
    destruct (keys_of_type model_lookup (Loader.info_equipment_type info))
      as [|k0 ks]; [contradiction|].
    eexists. split; [reflexivity | exact Hkin].
Qed.

Lemma comprehension_ok (A B : Type) (g : A -> result B) (xs : list A)
    (ys : list B) :
  comprehension g xs = Ok ys -> Forall2 (fun x y => g x = Ok y) xs ys.
Proof.
  revert ys. induction xs as [|x xs IH]; intros ys H; simpl in H.
  - injection H as <-. constructor.
  - destruct (g x) as [y|] eqn:Hx; [|discriminate]. simpl in H.
    destruct (comprehension g xs) as [ys'|]; [|discriminate].
    simpl in H. injection H as <-. constructor; [exact Hx | now apply IH].
Qed.

Lemma comprehension_total (A B : Type) (g : A -> result B) (xs : list A) :
  (forall x, In x xs -> exists y, g x = Ok y) ->
  exists ys, comprehension g xs = Ok ys.
Proof.
  induction xs as [|x xs IH]; intros H; simpl; [eauto|].
  destruct (H x (or_introl eq_refl)) as [y Hy]. rewrite Hy. simpl.
  destruct IH as [ys Hys]; [intros x' Hx'; apply H; now right|].
  rewrite Hys. simpl. eauto.
Qed.

Lemma index_ok (xs : list string) (x : string) (i : nat) :
  index xs x = Ok i ->
  nth_error xs i = Some x /\
  forall j, (j < i)%nat -> nth_error xs j <> Some x.
Proof.
  revert i. induction xs as [|y xs IH]; intros i H; simpl in H; [discriminate|].
  destruct (String.eqb_spec y x) as [->|Hne].
  - injection H as <-. split; [reflexivity | intros j Hj; lia].
  - destruct (index xs x) as [i'|]; [|discriminate]. simpl in H.
    injection H as <-. destruct (IH i' eq_refl) as [Hnth Hfirst].
    split; [exact Hnth|].
    intros [|j] Hj; simpl; [congruence | apply Hfirst; lia].
Qed.

Lemma index_total (xs : list string) (x : string) :
  In x xs -> exists i, index xs x = Ok i.
Proof.
  induction xs as [|y xs IH]; intros H; [contradiction|]. simpl.
  destruct (String.eqb_spec y x) as [->|Hne]; [eauto|].
  destruct H as [H|H]; [contradiction|].
  destruct (IH H) as [i Hi]. rewrite Hi. simpl. eauto.
Qed.

Lemma Forall2_nth_error_r (A B : Type) (R : A -> B -> Prop) (xs : list A)
    (ys : list B) (i : nat) (y : B) :
  Forall2 R xs ys -> nth_error ys i = Some y ->
  exists x, nth_error xs i = Some x /\ R x y.
Proof.
  intros H. revert i. induction H as [|x0 y0 xs ys Hxy _ IH]; intros i Hi.
  - destruct i; discriminate.
  - destruct i as [|i]; simpl in Hi |- *.
    + injection Hi as <-. eauto.
    + now apply IH.
Qed.

Lemma keys_of_type_In (model_lookup : dict Loader.model_info) (t k : string) :
  In k (keys_of_type model_lookup t) <->
  exists info, In (k, info) model_lookup /\ Loader.info_equipment_type info = t.
Proof.
  unfold keys_of_type. rewrite in_map_iff. split.
  - intros ([k' info] & <- & Hf). apply filter_In in Hf. destruct Hf as [Hf Ht].
    exists info. split; [exact Hf | now apply String.eqb_eq].
  - intros (info & Hf & Ht). exists (k, info). split; [reflexivity|].
    apply filter_In. split; [exact Hf | now apply String.eqb_eq].
Qed.

Lemma select_model_inv (model_metadata : dict Loader.model_info)
    (selected_type selected_display k : string) :
  Fixed.select_model model_metadata selected_type selected_display = Ok k ->
  In k (keys_of_type model_metadata selected_type) /\
  exists info, get model_metadata k = Some info /\
               Loader.display_name info = selected_display.
Proof.
  unfold Fixed.select_model. unfold getitem at 1. rewrite by_type_get.
  destruct (keys_of_type model_metadata selected_type) as [|k0 ks] eqn:Hks;
    [discriminate|].
  rewrite <- Hks. clear k0 ks Hks. cbn [bind].
  destruct (comprehension _ (keys_of_type model_metadata selected_type))
    as [names|] eqn:Hnames; [|discriminate].
  cbn [bind]. destruct (index names selected_display) as [i|] eqn:Hi; [|discriminate].
  cbn [bind]. unfold list_getitem.
  destruct (nth_error (keys_of_type model_metadata selected_type) i) as [k'|] eqn:Hk;
    [|discriminate].
  intros [= ->]. split; [eapply nth_error_In; eassumption|].
  apply comprehension_ok in Hnames. apply index_ok in Hi. destruct Hi as [Hi _].
  destruct (Forall2_nth_error_r _ Hnames Hi) as (x & Hx & Hg).
  rewrite Hk in Hx. injection Hx as <-.
  unfold getitem in Hg. destruct (get model_metadata k) as [info|]; [|discriminate].
  simpl in Hg. injection Hg as Hd. eauto.
Qed.

(** X7. The model selector of the second script. When it returns a key, the
    model of that key has the selected display name and the selected
    equipment type; and when some model of the selected type has the selected
    display name, it returns a key. The keys of the lookup are distinct. *)
Theorem select_model_spec (model_metadata : dict Loader.model_info)
    (selected_type selected_display : string)
    (Hnd : NoDup (keys model_metadata)) :
  (forall k,
      Fixed.select_model model_metadata selected_type selected_display = Ok k ->
      exists info, get model_metadata k = Some info /\
                   Loader.display_name info = selected_display /\
                   Loader.info_equipment_type info = selected_type) /\
  ((exists k info, In (k, info) model_metadata /\
                   Loader.info_equipment_type info = selected_type /\
                   Loader.display_name info = selected_display) ->
   exists k, Fixed.select_model model_metadata selected_type selected_display = Ok k).
Proof.
  split.
  - intros k H. apply select_model_inv in H. destruct H as (Hk & info & Hget & Hd).
    exists info. split; [exact Hget|]. split; [exact Hd|].
    apply keys_of_type_In in Hk. destruct Hk as (info' & Hin & Ht).
    rewrite (In_get _ _ _ Hnd Hin) in Hget. now injection Hget as <-.
  - intros (k & info & Hin & Ht & Hd).
    assert (Hk : In k (keys_of_type model_metadata selected_type))
      by (apply keys_of_type_In; eauto).
    unfold Fixed.select_model. unfold getitem at 1. rewrite by_type_get.
    destruct (keys_of_type model_metadata selected_type) as [|k0 ks] eqn:Hks;
      [contradiction|].
    rewrite <- Hks in *. clear k0 ks Hks. cbn [bind].
    destruct (comprehension_total
                (fun mk => info <- getitem model_metadata mk ;;
                           Ok (Loader.display_name info))
                (keys_of_type model_metadata selected_type)) as [names Hnames].
    { intros x Hx. apply keys_of_type_In in Hx. destruct Hx as (ix & Hix & _).
      unfold getitem. rewrite (In_get _ _ _ Hnd Hix). simpl. eauto. }
    rewrite Hnames. cbn [bind].
    pose proof (comprehension_ok _ _ Hnames) as Hall.
    assert (Hd_in : In selected_display names).
    { clear Hnames. induction Hall as [|x y xs ys Hxy _ IH]; [contradiction|].
      destruct Hk as [->|Hk].
      - left. unfold getitem in Hxy. rewrite (In_get _ _ _ Hnd Hin) in Hxy.
        simpl in Hxy. injection Hxy as <-. exact Hd.
      - right. now apply IH. }
    destruct (index_total _ _ Hd_in) as [i Hi]. rewrite Hi. cbn [bind].
    apply index_ok in Hi. destruct Hi as [Hi _].
    destruct (Forall2_nth_error_r _ Hall Hi) as (x & Hx & _).
    unfold list_getitem. rewrite Hx. eauto.
Qed.

(** A lookup of two excavators; the second display name is selected. *)
Lemma select_model_spec_witness :
  let model_metadata :=
    [ ("excavator_580N", Loader.mk_model_info "Excavator 580N" "Excavator" "580N" 2);
      ("excavator_590SN", Loader.mk_model_info "Excavator 590SN" "Excavator" "590SN" 1) ] in
  NoDup (keys model_metadata) /\
  exists info, get model_metadata "excavator_590SN" = Some info /\
               Loader.display_name info = "Excavator 590SN" /\
               Loader.info_equipment_type info = "Excavator".
Proof.
  intros model_metadata.
  assert (Hnd : NoDup (keys model_metadata))
    by (repeat constructor; simpl; intuition discriminate).
  split; [exact Hnd|].
  apply (proj1 (@select_model_spec model_metadata "Excavator" "Excavator 590SN" Hnd)).
  reflexivity.
Defined.



(* ================================================================== *)
(** * Further properties of the searches *)
(* ================================================================== *)

(** X9. The sidebar search of the first script over all models never
    raises; scoped to one model it raises [KeyError] of that model exactly
    when the model is no key of the database; and with an empty query the
    sidebar looks nothing up, whatever model is selected. *)
Theorem search_errors (db : Pro.database) (query : string) :
  (exists results, Pro.search db "All Models" query = Ok results) /\
  (forall selected_model,
      selected_model <> "All Models" ->
      (get db selected_model = None <->
       Pro.search db selected_model query = Raise (KeyError selected_model))) /\
  (forall selected_model,
      Pro.sidebar db selected_model "" = Ok Pro.EnterSearchTerms).
Proof.
  split; [|split].
  - eexists. rewrite search_unfold. unfold Pro.search_models.
    cbn [String.eqb Ascii.eqb Bool.eqb].
    apply search_loop_ok. apply Forall_forall. intros k Hk.
    apply get_keys. exact Hk.
  - intros selected_model Hne. rewrite search_unfold. unfold Pro.search_models.
    destruct (String.eqb_spec selected_model "All Models") as [|_]; [contradiction|].
    simpl. unfold getitem. split.
    + intros ->. reflexivity.
    + destruct (get db selected_model); [discriminate | reflexivity].
  - reflexivity.
Qed.

Lemma lower_char_idempotent (c : ascii) : lower_char (lower_char c) = lower_char c.
Proof. destruct c as [[] [] [] [] [] [] [] []]; reflexivity. Qed.

Lemma lower_idempotent (s : string) : lower (lower s) = lower s.
Proof.
  induction s as [|c s IH]; simpl; [reflexivity|].
  now rewrite lower_char_idempotent, IH.
Qed.


(** X10. Lower-casing the query beforehand changes the result of none of
    the three searches. *)
Theorem query_case_irrelevant (query : string) :
  (forall db selected_model,
      Pro.search db selected_model (lower query)
      = Pro.search db selected_model query) /\
  (forall ops, Fixed.filtered_ops ops (lower query) = Fixed.filtered_ops ops query) /\
  (forall df, Loader.search_srt_codes df (lower query)
              = Loader.search_srt_codes df query).
Proof.
  split; [|split].
  - intros db selected_model. unfold Pro.search. now rewrite lower_idempotent.
  - intros ops. destruct query as [|c q]; [reflexivity|].
    cbn [lower Fixed.filtered_ops].
    now rewrite lower_char_idempotent, lower_idempotent.
  - intros df. unfold Loader.search_srt_codes. now rewrite lower_idempotent.
Qed.





Lemma filter_comm (A : Type) (p q : A -> bool) (xs : list A) :
  filter p (filter q xs) = filter q (filter p xs).
Proof.
  induction xs as [|x xs IH]; simpl; [reflexivity|].
  destruct (p x) eqn:Hp, (q x) eqn:Hq; simpl; rewrite ?Hp, ?Hq, IH; reflexivity.
Qed.

(** X12. Searching the rows of one model and taking the rows of that model
    from a search of the whole table give the same rows. *)
Theorem search_within_model (df : Loader.DataFrame) (model_key query : string) :
  Loader.search_srt_codes (Loader.get_model_codes df model_key) query
  = option_map (fun rows => Loader.get_model_codes rows model_key)
               (Loader.search_srt_codes df query).
Proof.
  unfold Loader.search_srt_codes, Loader.get_model_codes, Loader.rows_of.
  destruct (Loader.regex_literal (lower query)); [|reflexivity].
  simpl. apply f_equal. apply filter_comm.
Qed.

(* ================================================================== *)
(** * Further properties of the quote *)
(* ================================================================== *)

Lemma remove_item_cases (st : session_state) (i : Z) :
  remove_item st i = (st, Some IndexError) \/
  exists before x after,
    quote_items st = before ++ x :: after /\
    remove_item st i = (mk_session (before ++ after) (factors st), None).
Proof.
  unfold remove_item, pop.
  destruct (position (List.length (quote_items st)) i) as [k|]; [|now left].
  destruct (nth_error (quote_items st) k) as [x|] eqn:Hx; [|now left].
  right. apply nth_error_split in Hx. destruct Hx as (before & after & Heq & Hlen).
  exists before, x, after. split; [exact Heq|].
  rewrite Heq at 1. rewrite <- Hlen, remove_at_split. reflexivity.
Qed.

(** X13. A quote whose items have pairwise distinct codes keeps them
    distinct under the Add button of the second script, under the remove
    button at any index, and under Clear Quote. *)
Theorem distinct_codes_kept (st : session_state)
    (Hdistinct : NoDup (codes_of st)) :
  (forall op selected_display,
      NoDup (codes_of (fst (Fixed.add_operation st op selected_display)))) /\
  (forall i, NoDup (codes_of (fst (remove_item st i)))) /\
  NoDup (codes_of (clear_quote st)).
Proof.
  split; [|split].
  - intros op selected_display. unfold Fixed.add_operation.
    destruct (any (fun item => String.eqb (item_code item) (op_code op))
                  (quote_items st)) eqn:Hany; simpl; [exact Hdistinct|].
    unfold codes_of. simpl. rewrite map_app. simpl.
    apply NoDup_app; [exact Hdistinct | repeat constructor; simpl; tauto |].
    intros c Hc [<-|[]].
    apply in_map_iff in Hc. destruct Hc as (item & Hcode & Hin).
    assert (Ht : any (fun item => String.eqb (item_code item) (op_code op))
                     (quote_items st) = true)
      by (apply any_code_spec; eauto).
    congruence.
  - intros i. destruct (remove_item_cases st i) as [->|(before & x & after & Heq & ->)];
      [exact Hdistinct|].
    unfold codes_of in *. simpl. rewrite Heq in Hdistinct.
    rewrite map_app in *. simpl in Hdistinct.
    exact (NoDup_remove_1 _ _ _ Hdistinct).
  - constructor.
Qed.

Lemma distinct_codes_kept_witness :
  let a := mk_quote_item "Excavator 580N" "10.001" "Engine oil" 1.5 in
  let b := mk_quote_item "Excavator 580N" "35.100" "Hydraulic pump" 4.0 in
  let st := mk_session [a; b] initial_factors in
  NoDup (codes_of st) /\
  NoDup (codes_of (fst (Fixed.add_operation st
                          (mk_operation "10.001" "Engine oil" 1.5)
                          "Excavator 580N"))).
Proof.
  intros a b st.
  assert (H : NoDup (codes_of st))
    by (repeat constructor; simpl; intuition discriminate).
  split; [exact H|].
  exact (proj1 (@distinct_codes_kept st H) _ _).
Defined.

(** X14. The Add button of the first script and the manual entry of the
    second do not look at the codes in the quote: adding a code the quote
    already has leaves it with a repeated code. *)
Theorem duplicate_codes_possible (st : session_state) (c : string)
    (Hin : In c (codes_of st)) :
  (forall r, item_code r = c -> ~ NoDup (codes_of (Pro.add_result st r))) /\
  (forall manufacturer manual_desc manual_hours,
      c <> "" -> manual_desc <> "" ->
      snd (Fixed.manual_entry st manufacturer c manual_desc manual_hours)
        = Fixed.ManualAdded /\
      ~ NoDup (codes_of (fst (Fixed.manual_entry st manufacturer c manual_desc
                                                 manual_hours)))).
Proof.
  assert (Hdup : forall r, item_code r = c ->
            ~ NoDup (map item_code (quote_items st ++ [r]))).
  { intros r Hr Hnd. rewrite map_app in Hnd. simpl in Hnd.
    apply NoDup_remove_2 in Hnd. rewrite app_nil_r in Hnd.
    apply Hnd. rewrite Hr. exact Hin. }
  split.
  - intros r Hr. exact (Hdup r Hr).
  - intros manufacturer manual_desc manual_hours Hc Hd.
    unfold Fixed.manual_entry.
    destruct c as [|c0 c]; [congruence|].
    destruct manual_desc as [|d0 d]; [congruence|].
    simpl. split; [reflexivity|]. apply Hdup. reflexivity.
Qed.

Lemma duplicate_codes_possible_witness :
  let a := mk_quote_item "Excavator 580N" "10.001" "Engine oil" 1.5 in
  let st := mk_session [a] initial_factors in
  In "10.001" (codes_of st) /\
  ~ NoDup (codes_of (Pro.add_result st a)).
Proof.
  intros a st.
  assert (H : In "10.001" (codes_of st)) by (left; reflexivity).
  split; [exact H|].
  exact (proj1 (@duplicate_codes_possible st "10.001" H) a eq_refl).
Defined.

(** X15. Removing the item just added gives back the session as it was:
    at the index of the last item, as the remove button passes it, and at
    the index -1. *)
Theorem add_then_remove (st : session_state) (r : quote_item) :
  remove_item (Pro.add_result st r) (Z.of_nat (List.length (quote_items st)))
    = (st, None) /\
  remove_item (Pro.add_result st r) (-1) = (st, None).
Proof.
  destruct st as [items f]. unfold remove_item, pop, Pro.add_result. simpl.
  rewrite length_app. simpl.
  assert (Hnth : nth_error (items ++ [r]) (List.length items) = Some r).
  { rewrite nth_error_app2 by lia. now rewrite Nat.sub_diag. }
  assert (Hrem : remove_at (List.length items) (items ++ [r]) = items).
  { rewrite remove_at_split. apply app_nil_r. }
  split.
  - unfold position.
    replace (0 <=? Z.of_nat (List.length items))%Z with true
      by (symmetry; apply Z.leb_le; lia).
    replace (Z.of_nat (List.length items) <? Z.of_nat (List.length items + 1))%Z
      with true by (symmetry; apply Z.ltb_lt; lia).
    simpl. rewrite Nat2Z.id, Hnth, Hrem. reflexivity.
  - unfold position.
    replace (- Z.of_nat (List.length items + 1) <=? -1)%Z with true
      by (symmetry; apply Z.leb_le; lia).
    simpl.
    replace (Z.to_nat (Z.of_nat (List.length items + 1) + -1))
      with (List.length items) by lia.
    rewrite Hnth, Hrem. reflexivity.
Qed.

Lemma getitem_get (V : Type) (d : dict V) (k : string) (v : V) :
  getitem d k = Ok v <-> get d k = Some v.
Proof.
  unfold getitem. destruct (get d k); split; intros H; try discriminate;
    injection H as <-; reflexivity.
Qed.

(** X16. The second tab replaces all six factors by the table values of
    the selected labels and leaves the items alone, whatever the factors
    were before; it fails only with [KeyError] of a selected label that is
    in no table. *)
Theorem tab2_spec (st : session_state) (sel : selections) :
  (forall st', tab2 st sel = Ok st' ->
     quote_items st' = quote_items st /\
     get DIFFICULTY_FACTORS_age (age_selection sel) = Some (age (factors st')) /\
     get DIFFICULTY_FACTORS_condition (condition_selection sel)
       = Some (condition (factors st')) /\
     get DIFFICULTY_FACTORS_location (location_selection sel)
       = Some (location (factors st')) /\
     get DIFFICULTY_FACTORS_manufacturer (mfr_selection sel)
       = Some (manufacturer (factors st')) /\
     get DIFFICULTY_FACTORS_urgency (urgency_selection sel)
       = Some (urgency (factors st')) /\
     get DIFFICULTY_FACTORS_complexity (complexity_selection sel)
       = Some (complexity (factors st'))) /\
  (forall f, tab2 (mk_session (quote_items st) f) sel = tab2 st sel) /\
  (forall e, tab2 st sel = Raise e ->
     exists label,
       e = KeyError label /\
       In label [age_selection sel; condition_selection sel;
                 location_selection sel; mfr_selection sel;
                 urgency_selection sel; complexity_selection sel]).
Proof.
  unfold tab2. split; [|split].
  - intros st'.
    destruct (getitem DIFFICULTY_FACTORS_age (age_selection sel)) as [a|] eqn:Ha;
      [|discriminate].
    destruct (getitem DIFFICULTY_FACTORS_condition (condition_selection sel))
      as [c|] eqn:Hc; [|discriminate].
    destruct (getitem DIFFICULTY_FACTORS_location (location_selection sel))
      as [l|] eqn:Hl; [|discriminate].
    destruct (getitem DIFFICULTY_FACTORS_manufacturer (mfr_selection sel))
      as [m|] eqn:Hm; [|discriminate].
    destruct (getitem DIFFICULTY_FACTORS_urgency (urgency_selection sel))
      as [u|] eqn:Hu; [|discriminate].
    destruct (getitem DIFFICULTY_FACTORS_complexity (complexity_selection sel))
      as [x|] eqn:Hx; [|discriminate].
    cbn [bind]. intros [= <-].
    cbn [quote_items factors age condition location manufacturer urgency complexity].
    repeat split; now apply getitem_get.
  - intros f. reflexivity.
  - intros e.
    unfold getitem.
    destruct (get DIFFICULTY_FACTORS_age (age_selection sel));
      [|intros [= <-]; eexists; split; [reflexivity | simpl; tauto]].
    destruct (get DIFFICULTY_FACTORS_condition (condition_selection sel));
      [|intros [= <-]; eexists; split; [reflexivity | simpl; tauto]].
    destruct (get DIFFICULTY_FACTORS_location (location_selection sel));
      [|intros [= <-]; eexists; split; [reflexivity | simpl; tauto]].
    destruct (get DIFFICULTY_FACTORS_manufacturer (mfr_selection sel));
      [|intros [= <-]; eexists; split; [reflexivity | simpl; tauto]].
    destruct (get DIFFICULTY_FACTORS_urgency (urgency_selection sel));
      [|intros [= <-]; eexists; split; [reflexivity | simpl; tauto]].
    destruct (get DIFFICULTY_FACTORS_complexity (complexity_selection sel));
      [|intros [= <-]; eexists; split; [reflexivity | simpl; tauto]].
    discriminate.
Qed.

Lemma tab2_spec_witness :
  let sel := mk_selections "9-12 years (Average)" "Good - Normal wear"
                           "Shop - Full facilities" "Caterpillar"
                           "Standard - Normal schedule"
                           "Routine - Standard service" in
  let st' := mk_session [] (mk_factors 1.25 1.10 1.0 1.05 1.0 1.0) in
  tab2 initial_session sel = Ok st' /\
  quote_items st' = quote_items initial_session /\
  get DIFFICULTY_FACTORS_age (age_selection sel) = Some (age (factors st')).
Proof.
  intros sel st'.
  assert (H : tab2 initial_session sel = Ok st') by reflexivity.
  split; [exact H|].
  destruct (proj1 (tab2_spec initial_session sel) st' H) as (H1 & H2 & _).
  split; [exact H1 | exact H2].
Defined.

Lemma table_products_bounded :
  forallb (fun a =>
  forallb (fun c =>
  forallb (fun l =>
  forallb (fun m =>
  forallb (fun u =>
  forallb (fun x =>
    let p := compose_multiplier (mk_factors a c l m u x) in
    (1 <=? p)%float
    && (p <=? compose_multiplier (mk_factors 1.75 1.60 1.75 1.20 2.00 1.50))%float
    && Bool.eqb (1 <? p)%float
         (negb (PrimFloat.Leibniz.eqb a 1 && PrimFloat.Leibniz.eqb c 1
                && PrimFloat.Leibniz.eqb l 1 && PrimFloat.Leibniz.eqb m 1
                && PrimFloat.Leibniz.eqb u 1 && PrimFloat.Leibniz.eqb x 1)))
    (map snd DIFFICULTY_FACTORS_complexity))
    (map snd DIFFICULTY_FACTORS_urgency))
    (map snd DIFFICULTY_FACTORS_manufacturer))
    (map snd DIFFICULTY_FACTORS_location))
    (map snd DIFFICULTY_FACTORS_condition))
    (map snd DIFFICULTY_FACTORS_age) = true.
Proof. vm_compute. reflexivity. Qed.

(** X17. For factors selected from the tables the composed multiplier is
    at least 1.0 and at most the product of the six largest entries, about
    17.64; and the second tab reports Standard exactly when all six factors
    are 1.0. *)
Theorem table_multiplier_bounds (f : difficulty_factors)
    (Hf : from_tables f) :
  (1 <=? compose_multiplier f)%float = true /\
  (compose_multiplier f
   <=? compose_multiplier (mk_factors 1.75 1.60 1.75 1.20 2.00 1.50))%float = true /\
  (snd (combined_impact f) = Standard <-> f = mk_factors 1 1 1 1 1 1).
Proof.
  destruct f as [a c l m u x].
  destruct Hf as (Ha & Hc & Hl & Hm & Hu & Hx); simpl in Ha, Hc, Hl, Hm, Hu, Hx.
  pose proof table_products_bounded as H.
  rewrite forallb_forall in H. specialize (H a Ha).
  rewrite forallb_forall in H. specialize (H c Hc).
  rewrite forallb_forall in H. specialize (H l Hl).
  rewrite forallb_forall in H. specialize (H m Hm).
  rewrite forallb_forall in H. specialize (H u Hu).
  rewrite forallb_forall in H. specialize (H x Hx).
  cbv zeta in H.
  apply andb_true_iff in H. destruct H as [H Hstd].
  apply andb_true_iff in H. destruct H as [Hlo Hhi].
  split; [exact Hlo|]. split; [exact Hhi|].
  apply Bool.eqb_prop in Hstd. unfold combined_impact. cbn [snd].
  rewrite Hstd. split.
  - intros Hs.
    destruct (PrimFloat.Leibniz.eqb a 1) eqn:Ea; [|discriminate].
    destruct (PrimFloat.Leibniz.eqb c 1) eqn:Ec; [|discriminate].
    destruct (PrimFloat.Leibniz.eqb l 1) eqn:El; [|discriminate].
    destruct (PrimFloat.Leibniz.eqb m 1) eqn:Em; [|discriminate].
    destruct (PrimFloat.Leibniz.eqb u 1) eqn:Eu; [|discriminate].
    destruct (PrimFloat.Leibniz.eqb x 1) eqn:Ex; [|discriminate].
    apply FloatAxioms.Leibniz.eqb_spec in Ea, Ec, El, Em, Eu, Ex.
    now subst.
  - intros [= -> -> -> -> -> ->]. reflexivity.
Qed.

Lemma table_multiplier_bounds_witness :
  from_tables (mk_factors 1.25 1.10 1.0 1.05 1.0 1.0) /\
  (1 <=? compose_multiplier (mk_factors 1.25 1.10 1.0 1.05 1.0 1.0))%float = true.
Proof.
  assert (Hf : from_tables (mk_factors 1.25 1.10 1.0 1.05 1.0 1.0))
    by (unfold from_tables; simpl; auto 20).
  split; [exact Hf|].
  exact (proj1 (table_multiplier_bounds Hf)).
Defined.

Lemma str_in_char (c : ascii) (s : string) :
  str_in (String c "") s = mentions c s.
Proof.
  induction s as [|d s IH]; [reflexivity|].
  cbn [str_in mentions]. rewrite IH. simpl.
  destruct (ascii_dec c d) as [->|Hne].
  - rewrite Ascii.eqb_refl. now destruct s.
  - destruct (Ascii.eqb_spec d c); [congruence | reflexivity].
Qed.

(** X18. The manufacturer entry the second tab preselects. It is always
    one of the eleven entries of the table and computing it never raises;
    when it is not the first entry, its label is the first word of the
    sidebar manufacturer. For the manufacturers of the sidebar it is the
    manufacturer itself, except for John Deere, which preselects the first
    entry. *)
Theorem default_mfr_index_spec :
  (forall manufacturer,
      exists i, default_mfr_index manufacturer = Ok i /\
        (i < List.length (keys DIFFICULTY_FACTORS_manufacturer))%nat /\
        (i <> 0%nat ->
         nth_error (keys DIFFICULTY_FACTORS_manufacturer) i
         = Some (hd "" (split " " manufacturer)))) /\
  (forall manufacturer, In manufacturer MANUFACTURERS ->
      exists i, default_mfr_index manufacturer = Ok i /\
        nth_error (keys DIFFICULTY_FACTORS_manufacturer) i
        = Some (if String.eqb manufacturer "John Deere"
                then "CNH (Case/New Holland)" else manufacturer)).
Proof.
  split.
  - intros manufacturer. unfold default_mfr_index.
    destruct (existsb (String.eqb (hd "" (split " " manufacturer)))
                      (keys DIFFICULTY_FACTORS_manufacturer)) eqn:Hin.
    + assert (Hfirst : (if str_in " " manufacturer
                        then hd "" (split " " manufacturer) else manufacturer)
                       = hd "" (split " " manufacturer)).
      { destruct (str_in " " manufacturer) eqn:Hsp; [reflexivity|].
        rewrite str_in_char in Hsp. now rewrite split_no_sep. }
      rewrite Hfirst. apply (proj1 (existsb_eqb_In _ _)) in Hin.
      destruct (index_total _ _ Hin) as [i Hi]. exists i.
      split; [exact Hi|]. apply index_ok in Hi. destruct Hi as [Hi _].
      split; [|intros _; exact Hi].
      apply nth_error_Some. congruence.
    + exists 0%nat. split; [reflexivity|]. split; [simpl; lia | congruence].
  - intros manufacturer Hin. simpl in Hin.
    repeat (destruct Hin as [<-|Hin];
            [eexists; split; [reflexivity | reflexivity]|]).
    contradiction.
Qed.

Lemma default_mfr_index_spec_witness :
  In "Komatsu" MANUFACTURERS /\
  exists i, default_mfr_index "Komatsu" = Ok i /\
    nth_error (keys DIFFICULTY_FACTORS_manufacturer) i = Some "Komatsu".
Proof.
  assert (H : In "Komatsu" MANUFACTURERS) by (simpl; tauto).
  split; [exact H|].
  exact (proj2 default_mfr_index_spec "Komatsu" H).
Defined.

(* ================================================================== *)
(** * The lookup of a loaded source, grouped *)
(* ================================================================== *)

Lemma set_fresh (V : Type) (d : dict V) (k : string) (v : V) :
  ~ In k (keys d) -> set d k v = d ++ [(k, v)].
Proof.
  unfold keys. induction d as [|[k' v'] d IH]; simpl; [reflexivity|].
  intros H. destruct (String.eqb_spec k' k) as [->|Hne].
  - exfalso. apply H. now left.
  - rewrite IH; [reflexivity|]. intros Hin. apply H. now right.
Qed.

Lemma lookup_loop_fresh (srt_data : dict (list Loader.raw_code))
    (acc : dict Loader.model_info) :
  NoDup (keys acc ++ keys srt_data) ->
  fold_left (fun lk item => set lk (fst item) (info_for item)) srt_data acc
  = acc ++ map (fun item => (fst item, info_for item)) srt_data.
Proof.
  revert acc. induction srt_data as [|item srt_data IH]; intros acc Hnd; simpl.
  - now rewrite app_nil_r.
  - unfold keys in *. simpl in Hnd.
    assert (Hfresh : ~ In (fst item) (map fst acc)).
    { apply NoDup_remove_2 in Hnd. intros Hin. apply Hnd.
      apply in_or_app. now left. }
    rewrite set_fresh by exact Hfresh.
    rewrite IH.
    + now rewrite <- app_assoc.
    + rewrite map_app. simpl. rewrite <- app_assoc. exact Hnd.
Qed.

(** X19. After the load of a well-formed source the lookup lists the
    models in the order of the source, and [get_models_by_type] puts under
    an equipment type the source keys whose first token, title-cased, is
    that type, in the order of the source. *)
Theorem load_then_group (srt_data : dict (list Loader.raw_code))
    (df : Loader.DataFrame) (model_lookup : dict Loader.model_info)
    (Hwf : well_formed srt_data)
    (Hload : Loader.load_srt_database (Loader.mk_files (Some srt_data) None None)
             = Ok (df, model_lookup)) :
  keys model_lookup = keys srt_data /\
  forall t,
    get (Loader.get_models_by_type model_lookup) t
    = match filter (fun k => String.eqb (fst (Loader.parse_model_key k)) t)
                   (keys srt_data) with
      | [] => None
      | ks => Some ks
      end.
Proof.
  destruct Hwf as [Hnd Hconv].
  change (Loader.load_json srt_data = Ok (df, model_lookup)) in Hload.
  pose proof (eq_trans (eq_sym Hload) (load_json_loop [] [] Hconv)) as Heq.
  injection Heq as _ ->.
  rewrite lookup_loop_fresh by exact Hnd. simpl.
  split.
  - unfold keys. rewrite map_map. reflexivity.
  - intros t. rewrite by_type_get.
    assert (Hk : keys_of_type (map (fun item => (fst item, info_for item)) srt_data) t
                 = filter (fun k => String.eqb (fst (Loader.parse_model_key k)) t)
                          (keys srt_data)).
    { unfold keys_of_type, keys. clear.
      induction srt_data as [|[k codes] srt_data IH]; [reflexivity|].
      cbn [map filter fst snd]. unfold info_for at 1. cbn [fst snd].
      destruct (Loader.parse_model_key k) as [et mn]. cbn [Loader.info_equipment_type fst].
      destruct (String.eqb et t); cbn [map fst]; now rewrite IH. }
    now rewrite Hk.
Qed.

Lemma load_then_group_witness :
  let srt_data :=
    [ ("excavator_580N",
       [ Loader.mk_raw_code "10.001" "Engine oil and filter change" (Loader.Numeric 1.5) ]);
      ("loader_821G", []);
      ("excavator_590SN", []) ] in
  let df :=
    [ Loader.mk_row "excavator_580N" "Excavator" "580N" "10.001"
                    "Engine oil and filter change" 1.5 ] in
  let model_lookup :=
    [ ("excavator_580N", Loader.mk_model_info "Excavator 580N" "Excavator" "580N" 1);
      ("loader_821G", Loader.mk_model_info "Loader 821G" "Loader" "821G" 0);
      ("excavator_590SN", Loader.mk_model_info "Excavator 590SN" "Excavator" "590SN" 0) ] in
  well_formed srt_data /\
  Loader.load_srt_database (Loader.mk_files (Some srt_data) None None)
    = Ok (df, model_lookup) /\
  keys model_lookup = keys srt_data.
Proof.
  intros srt_data df model_lookup.
  assert (Hwf : well_formed srt_data).
  { split.
    - repeat constructor; simpl; intuition discriminate.
    - repeat constructor; discriminate. }
  assert (Hload : Loader.load_srt_database (Loader.mk_files (Some srt_data) None None)
                  = Ok (df, model_lookup)) by reflexivity.
  split; [exact Hwf|]. split; [exact Hload|].
  exact (proj1 (@load_then_group srt_data df model_lookup Hwf Hload)).
Defined.

(* ================================================================== *)
(** * Instances *)
(* ================================================================== *)

(** A table of two models regrouped: the operations under the first key. *)
Lemma to_database_lookup_witness :
  let df :=
    [ Loader.mk_row "excavator_580N" "Excavator" "580N" "10.001"
                    "Engine oil and filter change" 1.5;
      Loader.mk_row "loader_821G" "Loader" "821G" "21.200"
                    "Transmission service" 6.0;
      Loader.mk_row "excavator_580N" "Excavator" "580N" "35.100"
                    "Hydraulic pump replace" 4.0 ] in
  let ops :=
    [ mk_operation "10.001" "Engine oil and filter change" 1.5;
      mk_operation "35.100" "Hydraulic pump replace" 4.0 ] in
  get (Fixed.to_database df) "excavator_580N" = Some ops /\
  ops <> [] /\
  map op_code ops = map Loader.code (Loader.get_model_codes df "excavator_580N").
Proof.
  intros df ops.
  assert (H : get (Fixed.to_database df) "excavator_580N" = Some ops) by reflexivity.
  split; [exact H|].
  exact (proj2 (proj2 (to_database_lookup df)) "excavator_580N" ops H).
Defined.

(** A lookup of three models grouped: the excavators. *)
Lemma models_grouped_by_type_witness :
  let model_lookup :=
    [ ("excavator_580N", Loader.mk_model_info "Excavator 580N" "Excavator" "580N" 2);
      ("loader_821G", Loader.mk_model_info "Loader 821G" "Loader" "821G" 1);
      ("excavator_590SN", Loader.mk_model_info "Excavator 590SN" "Excavator" "590SN" 1) ] in
  let group := [ "excavator_580N"; "excavator_590SN" ] in
  get (Loader.get_models_by_type model_lookup) "Excavator" = Some group /\
  group <> [] /\
  forall k, In k group <->
    exists info, In (k, info) model_lookup /\
                 Loader.info_equipment_type info = "Excavator".
Proof.
  intros model_lookup group.
  assert (H : get (Loader.get_models_by_type model_lookup) "Excavator" = Some group)
    by reflexivity.
  split; [exact H|].
  exact (proj1 (proj2 (models_grouped_by_type model_lookup)) "Excavator" group H).
Defined.

(** A search scoped to a model the database does not have. *)
Lemma search_errors_witness :
  let db : Pro.database :=
    [ ("excavator_580N",
       [ mk_operation "10.001" "Engine oil and filter change" 1.5 ]) ] in
  "loader_821G" <> "All Models" /\
  get db "loader_821G" = None /\
  Pro.search db "loader_821G" "oil" = Raise (KeyError "loader_821G").
Proof.
  intros db.
  assert (Hne : "loader_821G" <> "All Models") by discriminate.
  assert (Hget : get db "loader_821G" = None) by reflexivity.
  split; [exact Hne|]. split; [exact Hget|].
  exact (proj1 (proj1 (proj2 (search_errors db "oil")) "loader_821G" Hne) Hget).
Defined.
